(** * Pixwell JavaScript client: request executor and error classifier

    A shallow embedding of the client class [Pixwell] (constructor,
    [screenshot], [batch], [usage], [request], [handleError]) and of the
    error classes it throws, together with the small part of the JavaScript
    runtime the client relies on: property access on decoded JSON values,
    [parseInt], [Headers.get], timers and the [fetch] transport.

    Conventions of the model.
    - Strings are sequences of 8-bit code units.  Header values are byte
      strings in the Fetch standard, so this is exact for them.
    - An [async] function is a computation over an explicit [World]
      (pending timers and a chronological event trace) that either returns
      or throws.  Every awaited promise settles: a transport that has not
      settled when the timer fires is settled by the abort.
    - JSON numbers and their printing are parameters of the development. *)

From Stdlib Require Import ZArith NArith List String Ascii Bool Lia.
From Stdlib Require Import DecimalString.
Import ListNotations.
Open Scope string_scope.
#[local] Set Warnings "-register-all".

(** ** Strings and numbers of the JavaScript runtime *)

Module JS.

(** The result of [parseInt]: [NaN] or an integer.  The mathematical integer
    is kept; rounding to a double and the sign of zero are not modelled. *)
Inductive number : Type :=
  | NaN : number
  | Int : Z -> number.

(** Printing of an integer-valued number in a template literal (plain
    decimal; JavaScript switches to exponent notation from 1e21 on). *)
Definition Number_toString (z : Z) : string :=
  NilZero.string_of_int (Z.to_int z).

(** WhiteSpace and LineTerminator code units below 256. *)
Definition isWhiteSpace (c : ascii) : bool :=
  let n := nat_of_ascii c in
  existsb (Nat.eqb n) [9; 10; 11; 12; 13; 32; 160]%nat.

Fixpoint trimStart (s : string) : string :=
  match s with
  | String c rest => if isWhiteSpace c then trimStart rest else s
  | EmptyString => s
  end.

Definition digitValue (c : ascii) : option Z :=
  let n := nat_of_ascii c in
  if (48 <=? n)%nat && (n <=? 57)%nat then Some (Z.of_nat (n - 48)) else None.

(** Value of the longest prefix of radix-10 digits; [acc] is the value read
    so far, [None] while no digit has been read. *)
Fixpoint digitsPrefix (acc : option Z) (s : string) : option Z :=
  match s with
  | String c rest =>
      match digitValue c with
      | Some d =>
          digitsPrefix (Some (10 * match acc with Some a => a | None => 0 end + d)%Z) rest
      | None => acc
      end
  | EmptyString => acc
  end.

(** [parseInt(s, 10)]: skip leading white space, read an optional sign, then
    the longest run of decimal digits; [NaN] when that run is empty. *)
Definition parseInt (s : string) : number :=
  let trimmed := trimStart s in
  let '(sign, digits) :=
    match trimmed with
    | String "-" rest => ((-1)%Z, rest)
    | String "+" rest => (1%Z, rest)
    | _ => (1%Z, trimmed)
    end in
  match digitsPrefix None digits with
  | Some mathInt => Int (sign * mathInt)
  | None => NaN
  end.

(** A string is a decimal numeral when it is a non-empty run of digits. *)
Fixpoint allDigits (s : string) : bool :=
  match s with
  | String c rest =>
      match digitValue c with Some _ => allDigits rest | None => false end
  | EmptyString => true
  end.

Definition isDecimalNumeral (s : string) : bool :=
  match s with EmptyString => false | _ => allDigits s end.

(** The number a decimal numeral denotes, most significant digit first. *)
Definition numeralValue (s : string) : Z :=
  fold_left
    (fun acc c => (10 * acc + match digitValue c with Some d => d | None => 0 end)%Z)
    (list_ascii_of_string s) 0%Z.

(** Truthiness of a string: only the empty string is falsy. *)
Definition truthy (s : string) : bool :=
  match s with EmptyString => false | _ => true end.

(** [s.replace(/\/$/, "")]: drop one slash at the very end of [s]. *)
Fixpoint stripTrailingSlash (s : string) : string :=
  match s with
  | EmptyString => EmptyString
  | String c rest =>
      match rest with
      | EmptyString => if Ascii.eqb c "/" then EmptyString else s
      | _ => String c (stripTrailingSlash rest)
      end
  end.

End JS.

(** ** Response headers *)

Module Headers.

(** The header list of a response, in arrival order: (name, value). *)
Definition t : Type := list (string * string).

Definition lowerByte (c : ascii) : ascii :=
  let n := nat_of_ascii c in
  if (65 <=? n)%nat && (n <=? 90)%nat then ascii_of_nat (n + 32) else c.

Fixpoint lowercase (s : string) : string :=
  match s with
  | String c rest => String (lowerByte c) (lowercase rest)
  | EmptyString => EmptyString
  end.

Fixpoint join (sep : string) (l : list string) : string :=
  match l with
  | [] => ""
  | [x] => x
  | x :: rest => x ++ sep ++ join sep rest
  end.

(** [headers.get(name)]: names compare byte-case-insensitively; the values
    of all matching entries are combined with ", "; [None] (JavaScript
    [null]) when there is no such header. *)
Definition get (h : t) (name : string) : option string :=
  match filter (fun kv => String.eqb (lowercase (fst kv)) (lowercase name)) h with
  | [] => None
  | matching => Some (join ", " (map snd matching))
  end.

End Headers.

(** ** Values, errors and asynchronous computations *)

Section PixwellClient.

(** JSON numbers (IEEE doubles) and their conversion to a string. *)
Variable Double : Type.
Variable Double_toString : Double -> string.

(** A JavaScript value as far as decoded JSON and property access need it. *)
Inductive JsValue : Type :=
  | JUndefined : JsValue
  | JNull : JsValue
  | JBool : bool -> JsValue
  | JNumber : Double -> JsValue
  | JString : string -> JsValue
  | JArray : list JsValue -> JsValue
  | JObject : list (string * JsValue) -> JsValue.

(** [JSON.stringify] on the option objects sent as request bodies. *)
Variable JSON_stringify : JsValue -> string.

Definition isNullish (v : JsValue) : bool :=
  match v with
  | JUndefined | JNull => true
  | _ => false
  end.

(** A decoded object has [k] as an own key. *)
Definition hasOwn (props : list (string * JsValue)) (k : string) : bool :=
  existsb (fun kv => String.eqb (fst kv) k) props.

(** The abstract operation ToString on the values above; [None] when it
    throws a TypeError.  An array is joined with ",", its [null] and
    [undefined] elements shown as empty.  A decoded object is converted by
    the inherited [toString], which gives "[object Object]"; an own key
    "toString" hides it with a value that cannot be called, [valueOf] then
    yields no primitive, and the conversion throws. *)
Fixpoint ToString (v : JsValue) : option string :=
  match v with
  | JUndefined => Some "undefined"
  | JNull => Some "null"
  | JBool true => Some "true"
  | JBool false => Some "false"
  | JNumber d => Some (Double_toString d)
  | JString s => Some s
  | JArray items =>
      (fix joinItems (l : list JsValue) : option string :=
         match l with
         | [] => Some ""
         | x :: rest =>
             match (if isNullish x then Some "" else ToString x) with
             | None => None
             | Some shown =>
                 match rest with
                 | [] => Some shown
                 | _ =>
                     match joinItems rest with
                     | Some others => Some (shown ++ "," ++ others)
                     | None => None
                     end
                 end
             end
         end) items
  | JObject props =>
      if hasOwn props "toString" then None else Some "[object Object]"
  end.

(** [a ?? b] *)
Definition coalesce (a b : JsValue) : JsValue :=
  if isNullish a then b else a.

(** The value of property [k] of a non-nullish value, for the keys the
    client reads ("error", "message", "code"): an own property of a decoded
    object; no built-in prototype defines these keys. *)
Definition member (v : JsValue) (k : string) : JsValue :=
  match v with
  | JObject props =>
      match find (fun kv => String.eqb (fst kv) k) props with
      | Some kv => snd kv
      | None => JUndefined
      end
  | _ => JUndefined
  end.

(** [v?.k] *)
Definition optionalMember (v : JsValue) (k : string) : JsValue :=
  if isNullish v then JUndefined else member v k.

(** *** The error classes *)

Inductive ErrorClass : Type :=
  | PixwellErrorC
  | AuthenticationErrorC
  | RateLimitErrorC
  | ValidationErrorC
  | CaptureErrorC
  | NetworkErrorC.

(** An instance of [PixwellError] or of one of its subclasses.  [None]
    stands for a property that is [undefined]. *)
Record PixwellError : Type := mkPixwellError {
  cls : ErrorClass;
  message : string;
  code : JsValue;
  statusCode : option Z;
  retryAfter : option JS.number;
  field : option string
}.

(** The [name] each constructor assigns. *)
Definition name (e : PixwellError) : string :=
  match cls e with
  | PixwellErrorC => "PixwellError"
  | AuthenticationErrorC => "AuthenticationError"
  | RateLimitErrorC => "RateLimitError"
  | ValidationErrorC => "ValidationError"
  | CaptureErrorC => "CaptureError"
  | NetworkErrorC => "NetworkError"
  end.

(** What a [throw] can carry: a [PixwellError], another [Error] instance
    (TypeError, SyntaxError, DOMException, ...) with its name and message,
    or a value that is not an [Error]. *)
Inductive Thrown : Type :=
  | ThrowPixwell : PixwellError -> Thrown
  | ThrowError : string -> string -> Thrown
  | ThrowValue : JsValue -> Thrown.

Inductive Outcome (A : Type) : Type :=
  | Returned : A -> Outcome A
  | Threw : Thrown -> Outcome A.

Arguments Returned {A} _.
Arguments Threw {A} _.

(** The message [super(message)] into [Error] stores: the argument
    converted with ToString, the inherited empty string for an undefined
    argument; [None] when the conversion throws. *)
Definition Error_message (m : JsValue) : option string :=
  match m with
  | JUndefined => Some ""
  | _ => ToString m
  end.

(** The TypeError of a conversion that finds no primitive (message as V8
    words it). *)
Definition conversionError : Thrown :=
  ThrowError "TypeError" "Cannot convert object to primitive value".

(** A parameter with a default value takes it when the argument is
    [undefined]. *)
Definition defaultParam (arg : JsValue) (dflt : string) : JsValue :=
  match arg with
  | JUndefined => JString dflt
  | _ => arg
  end.

(** Running a constructor of the hierarchy: [super(message)] first, which
    may throw, then the fields of the instance. *)
Definition construct (c : ErrorClass) (msg cd : JsValue) (status : option Z)
    (retry : option JS.number) (fld : option string) : Outcome PixwellError :=
  match Error_message msg with
  | Some text => Returned (mkPixwellError c text cd status retry fld)
  | None => Threw conversionError
  end.

Definition new_PixwellError (msg cd : JsValue) (status : option Z)
  : Outcome PixwellError :=
  construct PixwellErrorC msg cd status None None.

Definition new_AuthenticationError (msg : JsValue) : Outcome PixwellError :=
  construct AuthenticationErrorC
    (defaultParam msg "Invalid or missing API key")
    (JString "AUTHENTICATION_ERROR") (Some 401%Z) None None.

Definition new_RateLimitError (msg : JsValue) (retry : option JS.number)
  : Outcome PixwellError :=
  construct RateLimitErrorC
    (defaultParam msg "Rate limit exceeded")
    (JString "RATE_LIMIT_ERROR") (Some 429%Z) retry None.

Definition new_ValidationError (msg : JsValue) (fld : option string)
  : Outcome PixwellError :=
  construct ValidationErrorC msg
    (JString "VALIDATION_ERROR") (Some 400%Z) None fld.

Definition new_CaptureError (msg : JsValue) : Outcome PixwellError :=
  construct CaptureErrorC msg
    (JString "CAPTURE_ERROR") (Some 500%Z) None None.

Definition new_NetworkError (msg : JsValue) : Outcome PixwellError :=
  construct NetworkErrorC
    (defaultParam msg "Network request failed")
    (JString "NETWORK_ERROR") None None None.

(** [v.k]: reading a property of [null] or [undefined] throws a TypeError
    (message as V8 words it). *)
Definition getMember (v : JsValue) (k : string) : Outcome JsValue :=
  if isNullish v
  then Threw (ThrowError "TypeError"
                ("Cannot read properties of "
                 ++ match v with JUndefined => "undefined" | _ => "null" end
                 ++ " (reading '" ++ k ++ "')"))
  else Returned (member v k).

(** *** Requests, timers and the world *)

Inductive Method : Type := GET | POST.

Inductive ResponseType : Type := RTjson | RTarrayBuffer.

Definition ArrayBuffer : Type := list Byte.byte.

Definition byteLength (b : ArrayBuffer) : Z := Z.of_nat (List.length b).

(** The second argument of [fetch]; [signal] names the timer whose firing
    aborts the call. *)
Record RequestInit : Type := {
  init_method : Method;
  init_headers : list (string * string);
  init_body : option string;
  init_signal : nat
}.

Inductive Event : Type :=
  | EvSetTimeout : nat -> Z -> Event
  | EvClearTimeout : nat -> Event
  | EvTimerFired : nat -> Event
  | EvFetch : string -> RequestInit -> Event.

(** Timers that are set and have neither fired nor been cleared, and the
    events so far, oldest first. *)
Record World : Type := {
  nextTimer : nat;
  pending : list nat;
  trace : list Event
}.

Definition Async (A : Type) : Type := World -> Outcome A * World.

Definition ret {A} (a : A) : Async A := fun w => (Returned a, w).

Definition throw {A} (t : Thrown) : Async A := fun w => (Threw t, w).

Definition bind {A B} (c : Async A) (k : A -> Async B) : Async B :=
  fun w =>
    match c w with
    | (Returned a, w') => k a w'
    | (Threw t, w') => (Threw t, w')
    end.

Definition tryCatch {A} (c : Async A) (handler : Thrown -> Async A) : Async A :=
  fun w =>
    match c w with
    | (Returned a, w') => (Returned a, w')
    | (Threw t, w') => handler t w'
    end.

(** Awaiting a promise whose settlement is already determined. *)
Definition await {A} (o : Outcome A) : Async A := fun w => (o, w).

(** [throw new C(...)]: the constructor runs first and may itself throw. *)
Definition throwNew {A} (built : Outcome PixwellError) : Async A :=
  fun w =>
    match built with
    | Returned e => (Threw (ThrowPixwell e), w)
    | Threw t => (Threw t, w)
    end.

Definition record (e : Event) (w : World) : World :=
  {| nextTimer := nextTimer w; pending := pending w; trace := trace w ++ [e] |}.

Definition setTimeout (ms : Z) : Async nat :=
  fun w =>
    let id := nextTimer w in
    (Returned id,
     {| nextTimer := S id;
        pending := id :: pending w;
        trace := trace w ++ [EvSetTimeout id ms] |}).

Definition clearTimeout (id : nat) : Async unit :=
  fun w =>
    (Returned tt,
     {| nextTimer := nextTimer w;
        pending := remove Nat.eq_dec id (pending w);
        trace := trace w ++ [EvClearTimeout id] |}).

(** A response as the client observes it: status, headers, and what reading
    the body with [json()] or [arrayBuffer()] settles to. *)
Record Response : Type := {
  status : Z;
  headers : Headers.t;
  json : Outcome JsValue;
  arrayBuffer : Outcome ArrayBuffer
}.

Definition ok (r : Response) : bool :=
  (200 <=? status r)%Z && (status r <=? 299)%Z.

(** How the transport behaves for one call: it delivers a response, fails at
    network level, or has settled neither way when the timer fires. *)
Inductive FetchOutcome : Type :=
  | Resolves : Response -> FetchOutcome
  | Rejects : Thrown -> FetchOutcome
  | Stalls : FetchOutcome.

Definition Transport : Type := string -> RequestInit -> FetchOutcome.

(** The reason of an abort signalled without an explicit reason. *)
Definition AbortError : Thrown :=
  ThrowError "AbortError" "This operation was aborted".

(** [await fetch(url, init)].  When the transport stalls, the timer named by
    the signal fires, its callback aborts the controller, and the call
    rejects with the abort reason. *)
Definition fetch (transport : Transport) (url : string) (init : RequestInit)
  : Async Response :=
  fun w =>
    let w1 := record (EvFetch url init) w in
    match transport url init with
    | Resolves r => (Returned r, w1)
    | Rejects t => (Threw t, w1)
    | Stalls =>
        (Threw AbortError,
         {| nextTimer := nextTimer w1;
            pending := remove Nat.eq_dec (init_signal init) (pending w1);
            trace := trace w1 ++ [EvTimerFired (init_signal init)] |})
    end.

Notation "x <- c1 ;; c2" := (bind c1 (fun x => c2))
  (at level 61, c1 at next level, right associativity).

(** *** The client *)

Definition DEFAULT_BASE_URL : string := "https://api.pixwell.dev".
Definition DEFAULT_TIMEOUT : Z := 60000.

(** [PixwellClientOptions]; [None] is a property that is missing.  The
    timeout is a whole number of milliseconds. *)
Record PixwellClientOptions : Type := {
  opt_apiKey : option string;
  opt_baseUrl : option string;
  opt_timeout : option Z
}.

Record Pixwell : Type := {
  apiKey : string;
  baseUrl : string;
  timeout : Z
}.

(** [!s] for a string that may be missing. *)
Definition isFalsy (s : option string) : bool :=
  match s with
  | Some v => negb (JS.truthy v)
  | None => true
  end.

(** [a ?? b] on a value that is a string or missing. *)
Definition orElse {A} (a : option A) (b : A) : A :=
  match a with
  | Some v => v
  | None => b
  end.

(** [Pixwell.constructor] *)
Definition new_Pixwell (options : PixwellClientOptions) : Async Pixwell :=
  if isFalsy (opt_apiKey options)
  then throwNew (new_ValidationError (JString "API key is required") (Some "apiKey"))
  else ret {| apiKey := orElse (opt_apiKey options) "";
              baseUrl := JS.stripTrailingSlash (orElse (opt_baseUrl options) DEFAULT_BASE_URL);
              timeout := orElse (opt_timeout options) DEFAULT_TIMEOUT |}.

(** [Pixwell.handleError] *)
Definition handleError (response : Response) : Async Empty_set :=
  errorData <- tryCatch (await (json response)) (fun _ => ret (JObject [])) ;;
  error1 <- await (getMember errorData "error") ;;
  let message :=
    coalesce (optionalMember error1 "message")
      (JString ("Request failed with status " ++ JS.Number_toString (status response))) in
  error2 <- await (getMember errorData "error") ;;
  let code := coalesce (optionalMember error2 "code") (JString "UNKNOWN_ERROR") in
  if (status response =? 401)%Z then
    throwNew (new_AuthenticationError message)
  else if (status response =? 429)%Z then
    let retryAfter := Headers.get (headers response) "retry-after" in
    throwNew (new_RateLimitError message
                (match retryAfter with
                 | Some v => if JS.truthy v then Some (JS.parseInt v) else None
                 | None => None
                 end))
  else if (status response =? 400)%Z then
    throwNew (new_ValidationError message None)
  else if (status response =? 500)%Z || (status response =? 502)%Z
          || (status response =? 503)%Z then
    throwNew (new_CaptureError message)
  else
    throwNew (new_PixwellError message code (Some (status response))).

Definition DataOf (rt : ResponseType) : Type :=
  match rt with
  | RTarrayBuffer => ArrayBuffer
  | RTjson => JsValue
  end.

Record RequestResult (rt : ResponseType) : Type := {
  res_data : DataOf rt;
  res_headers : Headers.t
}.

Arguments res_data {rt} _.
Arguments res_headers {rt} _.

Definition requestHeaders (this : Pixwell) : list (string * string) :=
  [("Authorization", "Bearer " ++ apiKey this);
   ("Content-Type", "application/json");
   ("User-Agent", "pixwell-js/1.0.0")].

(** The options object handed to [fetch]. *)
Definition requestInit (this : Pixwell) (method : Method) (body : option string)
    (timeoutId : nat) : RequestInit :=
  {| init_method := method;
     init_headers := requestHeaders this;
     init_body := body;
     init_signal := timeoutId |}.

Definition readBody (rt : ResponseType) (response : Response) : Async (DataOf rt) :=
  match rt with
  | RTarrayBuffer => await (arrayBuffer response)
  | RTjson => await (json response)
  end.

(** The [catch] block of [Pixwell.request]. *)
Definition requestCatch {A} (this : Pixwell) (timeoutId : nat) (error : Thrown)
  : Async A :=
  _ <- clearTimeout timeoutId ;;
  match error with
  | ThrowPixwell _ => throw error
  | ThrowError errName errMessage =>
      if String.eqb errName "AbortError"
      then throwNew (new_NetworkError
                       (JString ("Request timed out after "
                                 ++ JS.Number_toString (timeout this) ++ "ms")))
      else throwNew (new_NetworkError (JString errMessage))
  | ThrowValue _ =>
      throwNew (new_NetworkError (JString "Unknown error occurred"))
  end.

(** The [try] block of [Pixwell.request]. *)
Definition requestTry (this : Pixwell) (transport : Transport) (url : string)
    (method : Method) (body : option string) (rt : ResponseType) (timeoutId : nat)
  : Async (RequestResult rt) :=
  response <- fetch transport url (requestInit this method body timeoutId) ;;
  _ <- clearTimeout timeoutId ;;
  _ <- (if negb (ok response)
        then never <- handleError response ;; match never : Empty_set with end
        else ret tt) ;;
  data <- readBody rt response ;;
  ret {| res_data := data; res_headers := headers response |}.

(** [Pixwell.request] *)
Definition request (this : Pixwell) (transport : Transport) (path : string)
    (method : Method) (body : option string) (rt : ResponseType)
  : Async (RequestResult rt) :=
  let url := baseUrl this ++ path in
  timeoutId <- setTimeout (timeout this) ;;
  tryCatch (requestTry this transport url method body rt timeoutId)
           (requestCatch this timeoutId).

Definition Buffer : Type := list Byte.byte.

Definition Buffer_from (b : ArrayBuffer) : Buffer := b.

Record ScreenshotResponse : Type := {
  data : Buffer;
  contentType : string;
  size : Z;
  durationMs : JS.number;
  cached : bool
}.

(** [Pixwell.screenshot] *)
Definition screenshot (this : Pixwell) (transport : Transport) (options : JsValue)
  : Async ScreenshotResponse :=
  response <- request this transport "/api/v1/screenshot" POST
                (Some (JSON_stringify options)) RTarrayBuffer ;;
  ret {| data := Buffer_from (res_data response);
         contentType :=
           orElse (Headers.get (res_headers response) "content-type")
                  "application/octet-stream";
         size := byteLength (res_data response);
         durationMs :=
           JS.parseInt (orElse (Headers.get (res_headers response) "x-duration-ms") "0");
         cached :=
           match Headers.get (res_headers response) "x-cache" with
           | Some v => String.eqb v "HIT"
           | None => false
           end |}.

(** [Pixwell.batch] *)
Definition batch (this : Pixwell) (transport : Transport) (options : JsValue)
  : Async JsValue :=
  response <- request this transport "/api/v1/batch" POST
                (Some (JSON_stringify options)) RTjson ;;
  ret (res_data response).

(** [Pixwell.usage] *)
Definition usage (this : Pixwell) (transport : Transport) : Async JsValue :=
  response <- request this transport "/api/v1/usage" GET None RTjson ;;
  ret (res_data response).

(** *** Vocabulary of the statements *)

(** [errorData] in [handleError] once the guarded decode is over: the
    decoded body, or the initial empty object when decoding threw. *)
Definition errorDataOf (r : Response) : JsValue :=
  match json r with
  | Returned v => v
  | Threw _ => JObject []
  end.

Definition decodedMessage (r : Response) : JsValue :=
  optionalMember (member (errorDataOf r) "error") "message".

Definition decodedCode (r : Response) : JsValue :=
  optionalMember (member (errorDataOf r) "error") "code".

Definition genericMessage (st : Z) : string :=
  "Request failed with status " ++ JS.Number_toString st.

Definition timeoutMessage (this : Pixwell) : string :=
  "Request timed out after " ++ JS.Number_toString (timeout this) ++ "ms".

(** The class the dispatch table assigns to a status. *)
Definition tableClass (st : Z) : ErrorClass :=
  if (st =? 401)%Z then AuthenticationErrorC
  else if (st =? 429)%Z then RateLimitErrorC
  else if (st =? 400)%Z then ValidationErrorC
  else if (st =? 500)%Z || (st =? 502)%Z || (st =? 503)%Z then CaptureErrorC
  else PixwellErrorC.

(** The [code] every instance of a subclass carries; the base class has
    none of its own. *)
Definition fixedCode (c : ErrorClass) : option string :=
  match c with
  | PixwellErrorC => None
  | AuthenticationErrorC => Some "AUTHENTICATION_ERROR"
  | RateLimitErrorC => Some "RATE_LIMIT_ERROR"
  | ValidationErrorC => Some "VALIDATION_ERROR"
  | CaptureErrorC => Some "CAPTURE_ERROR"
  | NetworkErrorC => Some "NETWORK_ERROR"
  end.

(** The statuses with a row of their own in the dispatch table. *)
Definition specialStatuses : list Z := [401; 429; 400; 500; 502; 503]%Z.

(** The [retryAfter] argument [handleError] computes from the headers. *)
Definition retryAfterOf (h : Headers.t) : option JS.number :=
  match Headers.get h "retry-after" with
  | Some v => if JS.truthy v then Some (JS.parseInt v) else None
  | None => None
  end.

(** ToString does not throw on [v]. *)
Definition converts (v : JsValue) : bool :=
  match ToString v with
  | Some _ => true
  | None => false
  end.

(** The text of the message [handleError] hands to the constructors; [None]
    when converting it throws. *)
Definition messageText (r : Response) : option string :=
  ToString (coalesce (decodedMessage r) (JString (genericMessage (status r)))).

(** The error [handleError] constructs when reading [errorData.error] does
    not throw and the message converts to [text]. *)
Definition classified (r : Response) (text : string) : PixwellError :=
  match tableClass (status r) with
  | AuthenticationErrorC =>
      mkPixwellError AuthenticationErrorC text (JString "AUTHENTICATION_ERROR")
        (Some 401%Z) None None
  | RateLimitErrorC =>
      mkPixwellError RateLimitErrorC text (JString "RATE_LIMIT_ERROR")
        (Some 429%Z) (retryAfterOf (headers r)) None
  | ValidationErrorC =>
      mkPixwellError ValidationErrorC text (JString "VALIDATION_ERROR")
        (Some 400%Z) None None
  | CaptureErrorC =>
      mkPixwellError CaptureErrorC text (JString "CAPTURE_ERROR")
        (Some 500%Z) None None
  | _ =>
      mkPixwellError PixwellErrorC text
        (coalesce (decodedCode r) (JString "UNKNOWN_ERROR"))
        (Some (status r)) None None
  end.

(** The network error with message [text]. *)
Definition networkError (text : string) : PixwellError :=
  mkPixwellError NetworkErrorC text (JString "NETWORK_ERROR") None None None.

(** What [handleError] throws. *)
Definition thrownByHandleError (r : Response) : Thrown :=
  if isNullish (errorDataOf r)
  then ThrowError "TypeError"
         ("Cannot read properties of "
          ++ match errorDataOf r with JUndefined => "undefined" | _ => "null" end
          ++ " (reading 'error')")
  else match messageText r with
       | Some text => ThrowPixwell (classified r text)
       | None => conversionError
       end.

(** The call [request] makes on the transport from world [w]. *)
Definition callOf (this : Pixwell) (transport : Transport) (path : string)
    (method : Method) (body : option string) (w : World) : FetchOutcome :=
  transport (baseUrl this ++ path) (requestInit this method body (nextTimer w)).

(** What the [catch] block of [request] throws for a caught value. *)
Definition rethrown (this : Pixwell) (caught : Thrown) : PixwellError :=
  match caught with
  | ThrowPixwell e => e
  | ThrowError errName errMessage =>
      if String.eqb errName "AbortError"
      then networkError (timeoutMessage this)
      else networkError errMessage
  | ThrowValue _ => networkError "Unknown error occurred"
  end.

(** What reading the body in the requested mode settles to. *)
Definition bodyOf (rt : ResponseType) (r : Response) : Outcome (DataOf rt) :=
  match rt with
  | RTarrayBuffer => arrayBuffer r
  | RTjson => json r
  end.

(** [request] ends by throwing the [PixwellError] [e]. *)
Definition raises {A} (run : Outcome A * World) (e : PixwellError) : Prop :=
  fst run = Threw (ThrowPixwell e).

(** The duration the description promises: the numeric value of a numeric
    header, 0 for an absent or non-numeric one. *)
Definition promisedDuration (h : option string) : JS.number :=
  match h with
  | Some v => if JS.isDecimalNumeral v then JS.Int (JS.numeralValue v) else JS.Int 0
  | None => JS.Int 0
  end.

(** The retry-after the description promises: the numeric parse of a numeric
    header, undefined otherwise. *)
Definition promisedRetryAfter (h : option string) : option JS.number :=
  match h with
  | Some v => if JS.isDecimalNumeral v then Some (JS.Int (JS.numeralValue v)) else None
  | None => None
  end.

(** *** Sample inputs *)

Definition sampleClient : Pixwell :=
  {| apiKey := "px_live_key"; baseUrl := "https://api.pixwell.dev"; timeout := 50 |}.

Definition freshWorld : World :=
  {| nextTimer := 0; pending := []; trace := [] |}.

(** A transport that answers every call with the same response. *)
Definition respond (r : Response) : Transport := fun _ _ => Resolves r.

(** A transport that never settles on its own. *)
Definition stall : Transport := fun _ _ => Stalls.

Definition notJson : Outcome JsValue :=
  Threw (ThrowError "SyntaxError" "Unexpected token < in JSON at position 0").

(** A failed response whose body is the JSON text [null]. *)
Definition nullBody (st : Z) : Response :=
  {| status := st; headers := []; json := Returned JNull; arrayBuffer := Returned [] |}.

(** A failed response with a structured error body. *)
Definition errorBody (st : Z) (h : Headers.t) (cd msg : string) : Response :=
  {| status := st;
     headers := h;
     json := Returned (JObject [("error", JObject [("code", JString cd);
                                                   ("message", JString msg)])]);
     arrayBuffer := Returned [] |}.

(** A successful binary response. *)
Definition imageResponse (h : Headers.t) (bytes : ArrayBuffer) : Response :=
  {| status := 200; headers := h; json := notJson; arrayBuffer := Returned bytes |}.

Definition pngBytes : ArrayBuffer :=
  [Byte.x89; Byte.x50; Byte.x4e; Byte.x47].

Definition sampleOptions : JsValue :=
  JObject [("url", JString "https://example.com")].

(** The mocked capture response: png, 512 ms, served from cache. *)
Definition cachedImage : Response :=
  imageResponse
    [("content-type", "image/png"); ("x-duration-ms", "512"); ("x-cache", "HIT")]
    pngBytes.

(** A capture response whose duration header is not a number. *)
Definition untimedImage : Response :=
  imageResponse [("content-type", "image/png"); ("x-duration-ms", "n/a")] pngBytes.

(** A 429 whose retry-after header is a date, as HTTP allows. *)
Definition retryAtDate : Response :=
  errorBody 429 [("retry-after", "Wed, 21 Oct 2015 07:28:00 GMT")]
    "RATE_LIMITED" "Too many requests".

(** Options whose credential is the empty string. *)
Definition emptyKeyOptions : PixwellClientOptions :=
  {| opt_apiKey := Some ""; opt_baseUrl := None; opt_timeout := None |}.

(** The capture result expected for [cachedImage]. *)
Definition cachedResult : ScreenshotResponse :=
  {| data := pngBytes;
     contentType := "image/png";
     size := 4;
     durationMs := JS.Int 512;
     cached := true |}.

Definition unauthorized : Response :=
  errorBody 401 [] "INVALID_KEY" "Invalid API key".

Definition badGateway : Response :=
  errorBody 502 [] "UPSTREAM_DOWN" "Bad gateway".

(** A 429 whose retry-after header is a number of seconds. *)
Definition retryIn30 : Response :=
  errorBody 429 [("retry-after", "30")] "RATE_LIMITED" "Too many requests".

(** *** Vocabulary for the executor's protocol and the configuration *)

(** The calls on the transport recorded in a trace, oldest first. *)
Definition fetchCalls (evs : list Event) : list (string * RequestInit) :=
  flat_map (fun ev => match ev with
                      | EvFetch url init => [(url, init)]
                      | _ => []
                      end) evs.

(** Every pending timer was handed out by [setTimeout] earlier. *)
Definition wellFormed (w : World) : Prop :=
  forall id, In id (pending w) -> (id < nextTimer w)%nat.

Definition withSignal (id : nat) (init : RequestInit) : RequestInit :=
  {| init_method := init_method init;
     init_headers := init_headers init;
     init_body := init_body init;
     init_signal := id |}.

(** A transport whose behaviour does not depend on which timer guards the
    call. *)
Definition signalBlind (transport : Transport) : Prop :=
  forall url init id, transport url (withSignal id init) = transport url init.

Fixpoint endsWithSlash (s : string) : bool :=
  match s with
  | EmptyString => false
  | String c rest =>
      match rest with
      | EmptyString => Ascii.eqb c "/"
      | _ => endsWithSlash rest
      end
  end.

Definition isObject (v : JsValue) : bool :=
  match v with
  | JObject _ => true
  | _ => false
  end.

(** The events one call of [request] appends after setting its timer and
    calling the transport. *)
Definition closingEvents (rt : ResponseType) (id : nat) (o : FetchOutcome)
  : list Event :=
  match o with
  | Resolves r =>
      if ok r
      then match bodyOf rt r with
           | Returned _ => [EvClearTimeout id]
           | Threw _ => [EvClearTimeout id; EvClearTimeout id]
           end
      else [EvClearTimeout id; EvClearTimeout id]
  | Rejects _ => [EvClearTimeout id]
  | Stalls => [EvTimerFired id; EvClearTimeout id]
  end.

(** More sample inputs. *)
Definition slashOptions : PixwellClientOptions :=
  {| opt_apiKey := Some "px_live_key";
     opt_baseUrl := Some "https://proxy.example.com/";
     opt_timeout := Some 0%Z |}.

Definition usageBody : JsValue :=
  JObject [("plan", JObject [("name", JString "pro")])].

Definition usageResponse : Response :=
  {| status := 200; headers := []; json := Returned usageBody;
     arrayBuffer := Returned [] |}.

(** A 2xx response whose body is not JSON. *)
Definition htmlResponse : Response :=
  {| status := 200; headers := []; json := notJson; arrayBuffer := Returned [] |}.

(** A failed response whose body is not JSON. *)
Definition gatewayPage (st : Z) : Response :=
  {| status := st; headers := []; json := notJson; arrayBuffer := Returned [] |}.

(** A failed response whose [error] property is a plain string. *)
Definition flatError (st : Z) : Response :=
  {| status := st; headers := [];
     json := Returned (JObject [("error", JString "not found")]);
     arrayBuffer := Returned [] |}.

(** A failed response whose decoded message is an object with an own key
    "toString". *)
Definition unprintableMessage (st : Z) : Response :=
  {| status := st; headers := [];
     json := Returned (JObject [("error",
               JObject [("code", JString "E_OBJECT");
                        ("message", JObject [("toString", JBool true)])])]);
     arrayBuffer := Returned [] |}.

(** The error expected for [unauthorized]. *)
Definition invalidKeyError : PixwellError :=
  mkPixwellError AuthenticationErrorC "Invalid API key"
    (JString "AUTHENTICATION_ERROR") (Some 401%Z) None None.

(** The error expected for [retryIn30]. *)
Definition rateLimitedFor30 : PixwellError :=
  mkPixwellError RateLimitErrorC "Too many requests"
    (JString "RATE_LIMIT_ERROR") (Some 429%Z) (Some (JS.Int 30)) None.

(** A world in which two timers of other calls are pending. *)
Definition busyWorld : World :=
  {| nextTimer := 7; pending := [3; 5]%nat; trace := [] |}.

Definition connectionReset : Transport :=
  fun _ _ => Rejects (ThrowError "TypeError" "fetch failed").

Definition abortedElsewhere : Transport :=
  fun _ _ => Rejects (ThrowError "AbortError" "The user aborted a request.").

(** ** Properties *)

Example parseInt_512 : JS.parseInt "512" = JS.Int 512.
Proof. reflexivity. Qed.
Example parseInt_abc : JS.parseInt "abc" = JS.NaN.
Proof. reflexivity. Qed.
Example parseInt_neg : JS.parseInt "  -12.5s" = JS.Int (-12).
Proof. reflexivity. Qed.
Example toString_60000 : JS.Number_toString 60000 = "60000".
Proof. reflexivity. Qed.
Example toString_0 : JS.Number_toString 0 = "0".
Proof. reflexivity. Qed.
Example toString_neg : JS.Number_toString (-5) = "-5".
Proof. reflexivity. Qed.
Example strip1 : JS.stripTrailingSlash "http://a/b//" = "http://a/b/".
Proof. reflexivity. Qed.
Example get1 : Headers.get [("Content-Type", "a"); ("x", "y"); ("content-type", "b")] "content-type" = Some "a, b".
Proof. reflexivity. Qed.

(** *** The error classifier *)

Lemma getMember_not_nullish (v : JsValue) (k : string) :
  isNullish v = false -> getMember v k = Returned (member v k).
Proof. intros H. unfold getMember. now rewrite H. Qed.

Lemma coalesce_not_undefined (a : JsValue) (s : string) :
  coalesce a (JString s) <> JUndefined.
Proof. unfold coalesce. destruct a; cbn; discriminate. Qed.

Lemma Error_message_defined (m : JsValue) :
  m <> JUndefined -> Error_message m = ToString m.
Proof. destruct m; intros H; try contradiction; reflexivity. Qed.

Lemma Error_message_defaultParam (m : JsValue) (dflt : string) :
  m <> JUndefined -> Error_message (defaultParam m dflt) = ToString m.
Proof. destruct m; intros H; try contradiction; reflexivity. Qed.

(** The network error of the vocabulary is what the constructor builds from
    a string. *)
Lemma new_NetworkError_string (text : string) :
  new_NetworkError (JString text) = Returned (networkError text).
Proof. reflexivity. Qed.

(** [handleError] never returns and leaves the world as it is. *)
Lemma handleError_throws (r : Response) (w : World) :
  handleError r w = (Threw (thrownByHandleError r), w).
Proof.
  unfold handleError, thrownByHandleError, messageText, classified, decodedMessage,
    decodedCode, errorDataOf, tableClass, retryAfterOf.
  unfold bind, tryCatch, await, ret, getMember.
  unfold new_AuthenticationError, new_RateLimitError, new_ValidationError,
    new_CaptureError, new_PixwellError.
  assert (Hgen : forall v : JsValue,
             Error_message (coalesce v (JString (genericMessage (status r))))
             = ToString (coalesce v (JString (genericMessage (status r))))).
  { intros v. apply Error_message_defined, coalesce_not_undefined. }
  assert (Hdef : forall (v : JsValue) dflt,
             Error_message
               (defaultParam (coalesce v (JString (genericMessage (status r)))) dflt)
             = ToString (coalesce v (JString (genericMessage (status r))))).
  { intros v dflt. apply Error_message_defaultParam, coalesce_not_undefined. }
  fold (genericMessage (status r)).
  destruct (json r) as [v | t]; cbn [isNullish fst snd];
    [destruct (isNullish v) eqn:Hv; [reflexivity |] |];
    (destruct (status r =? 401)%Z;
     [unfold throwNew, construct; rewrite Hdef;
      match goal with |- context [ToString ?m] => destruct (ToString m) end;
      reflexivity |]);
    (destruct (status r =? 429)%Z;
     [unfold throwNew, construct; rewrite Hdef;
      match goal with |- context [ToString ?m] => destruct (ToString m) end;
      reflexivity |]);
    (destruct (status r =? 400)%Z;
     [unfold throwNew, construct; rewrite Hgen;
      match goal with |- context [ToString ?m] => destruct (ToString m) end;
      reflexivity |]);
    destruct ((status r =? 500) || (status r =? 502) || (status r =? 503))%Z;
    unfold throwNew, construct; rewrite Hgen;
    match goal with |- context [ToString ?m] => destruct (ToString m) end;
    reflexivity.
Qed.

(** *** The request executor *)

Lemma requestCatch_throws {A} (this : Pixwell) (id : nat) (caught : Thrown) (w : World) :
  @requestCatch A this id caught w
  = (Threw (ThrowPixwell (rethrown this caught)), snd (clearTimeout id w)).
Proof.
  unfold requestCatch, rethrown, timeoutMessage, bind, throw. cbn [clearTimeout fst snd].
  destruct caught as [e | errName errMessage | v]; try reflexivity.
  destruct (String.eqb errName "AbortError"); reflexivity.
Qed.

(** The outcome of [request], by what the transport does. *)
Lemma request_outcome (this : Pixwell) (transport : Transport) (path : string)
    (method : Method) (body : option string) (rt : ResponseType) (w : World) :
  fst (request this transport path method body rt w)
  = match callOf this transport path method body w with
    | Resolves r =>
        if ok r
        then match bodyOf rt r with
             | Returned d => Returned {| res_data := d; res_headers := headers r |}
             | Threw t => Threw (ThrowPixwell (rethrown this t))
             end
        else Threw (ThrowPixwell (rethrown this (thrownByHandleError r)))
    | Rejects t => Threw (ThrowPixwell (rethrown this t))
    | Stalls => Threw (ThrowPixwell (networkError (timeoutMessage this)))
    end.
Proof.
  unfold request, callOf, requestTry, tryCatch, bind, fetch.
  cbn [setTimeout fst snd nextTimer record].
  destruct (transport _ _) as [r | t | ].
  - cbn [clearTimeout fst snd]. destruct (ok r); cbn [negb].
    + unfold ret at 1. unfold readBody, bodyOf, await.
      destruct rt.
      * destruct (json r) as [d | t]; [reflexivity |].
        now rewrite requestCatch_throws.
      * destruct (arrayBuffer r) as [d | t]; [reflexivity |].
        now rewrite requestCatch_throws.
    + rewrite handleError_throws. now rewrite requestCatch_throws.
  - now rewrite requestCatch_throws.
  - now rewrite requestCatch_throws.
Qed.

Lemma remove_twice (x : nat) (l : list nat) :
  remove Nat.eq_dec x (remove Nat.eq_dec x l) = remove Nat.eq_dec x l.
Proof. apply notin_remove, remove_In. Qed.

Lemma remove_head (x : nat) (l : list nat) :
  remove Nat.eq_dec x (x :: l) = remove Nat.eq_dec x l.
Proof. cbn. destruct (Nat.eq_dec x x); [reflexivity | contradiction]. Qed.

Ltac world_step :=
  cbn [clearTimeout record ret fst snd pending trace nextTimer requestInit init_signal].

Ltac trace_done :=
  world_step; rewrite <- ?app_assoc; reflexivity.

(** The world [request] leaves behind: its own timer is no longer pending,
    and its last event is the cancellation of that timer. *)
Lemma request_world (this : Pixwell) (transport : Transport) (path : string)
    (method : Method) (body : option string) (rt : ResponseType) (w : World) :
  let w' := snd (request this transport path method body rt w) in
  pending w' = remove Nat.eq_dec (nextTimer w) (pending w) /\
  exists between,
    trace w' = (trace w ++ EvSetTimeout (nextTimer w) (timeout this)
                          :: between ++ [EvClearTimeout (nextTimer w)])%list.
Proof.
  unfold request, requestTry, tryCatch, bind, fetch.
  cbn [setTimeout fst snd nextTimer record pending trace].
  destruct (transport _ _) as [r | t | ].
  - world_step. destruct (ok r); cbn [negb].
    + unfold ret at 1. unfold readBody, await.
      destruct rt; [destruct (json r) as [d | t] | destruct (arrayBuffer r) as [d | t]];
        world_step; rewrite ?requestCatch_throws; world_step;
        (split; [now rewrite ?remove_twice, remove_head |]).
      * eexists [_]. trace_done.
      * eexists [_; _]. trace_done.
      * eexists [_]. trace_done.
      * eexists [_; _]. trace_done.
    + rewrite handleError_throws, requestCatch_throws. world_step.
      split; [now rewrite remove_twice, remove_head |].
      eexists [_; _]. trace_done.
  - rewrite requestCatch_throws. world_step.
    split; [apply remove_head |].
    eexists [_]. trace_done.
  - rewrite requestCatch_throws. world_step.
    split; [now rewrite remove_twice, remove_head |].
    eexists [_; _]. trace_done.
Qed.

Lemma request_failure_raises (this : Pixwell) (transport : Transport) (path : string)
    (method : Method) (body : option string) (rt : ResponseType) (w : World)
    (r : Response) :
  callOf this transport path method body w = Resolves r ->
  ok r = false ->
  raises (request this transport path method body rt w)
         (rethrown this (thrownByHandleError r)).
Proof.
  intros Hcall Hok. unfold raises. rewrite request_outcome, Hcall, Hok. reflexivity.
Qed.

(** A response with a status outside 200..299 never makes [request] return:
    it always ends in a thrown [PixwellError]. *)
Lemma request_failure_never_returns (this : Pixwell) (transport : Transport)
    (path : string) (method : Method) (body : option string) (rt : ResponseType)
    (w : World) (r : Response) :
  callOf this transport path method body w = Resolves r ->
  ok r = false ->
  exists e, raises (request this transport path method body rt w) e.
Proof.
  intros Hcall Hok. exists (rethrown this (thrownByHandleError r)).
  now apply request_failure_raises.
Qed.

(** The text handed to the constructors: the generic text for a missing or
    [null] decoded message, the converted decoded message otherwise. *)
Lemma messageText_spec (r : Response) :
  messageText r
  = if isNullish (decodedMessage r)
    then Some (genericMessage (status r))
    else ToString (decodedMessage r).
Proof.
  unfold messageText, coalesce. destruct (isNullish (decodedMessage r)); reflexivity.
Qed.

Lemma converts_messageText (r : Response) :
  converts (decodedMessage r) = true -> exists text, messageText r = Some text.
Proof.
  rewrite messageText_spec. unfold converts.
  destruct (isNullish (decodedMessage r)); [eauto |].
  destruct (ToString (decodedMessage r)); [eauto | discriminate].
Qed.

(** With a decoded body other than [null] and a message that converts, a
    failed response is raised as the error of the dispatch table. *)
Lemma request_failure_raises_classified (this : Pixwell) (transport : Transport)
    (path : string) (method : Method) (body : option string) (rt : ResponseType)
    (w : World) (r : Response) (text : string) :
  callOf this transport path method body w = Resolves r ->
  ok r = false ->
  isNullish (errorDataOf r) = false ->
  messageText r = Some text ->
  raises (request this transport path method body rt w) (classified r text).
Proof.
  intros Hcall Hok Hbody Htext.
  pose proof (request_failure_raises this transport path method body rt w r Hcall Hok) as H.
  unfold thrownByHandleError in H. now rewrite Hbody, Htext in H.
Qed.

(** A decoded body that is [null] (or [undefined]) turns any failed status
    into a network error carrying the TypeError's message. *)
Lemma request_failure_null_body (this : Pixwell) (transport : Transport)
    (path : string) (method : Method) (body : option string) (rt : ResponseType)
    (w : World) (r : Response) :
  callOf this transport path method body w = Resolves r ->
  ok r = false ->
  isNullish (errorDataOf r) = true ->
  raises (request this transport path method body rt w)
         (networkError
            ("Cannot read properties of "
             ++ match errorDataOf r with JUndefined => "undefined" | _ => "null" end
             ++ " (reading 'error')")).
Proof.
  intros Hcall Hok Hbody.
  pose proof (request_failure_raises this transport path method body rt w r Hcall Hok) as H.
  unfold thrownByHandleError in H. now rewrite Hbody in H.
Qed.

(** A decoded message whose conversion to a string throws turns any failed
    status into a network error carrying that TypeError's message. *)
Lemma request_failure_unconvertible (this : Pixwell) (transport : Transport)
    (path : string) (method : Method) (body : option string) (rt : ResponseType)
    (w : World) (r : Response) :
  callOf this transport path method body w = Resolves r ->
  ok r = false ->
  isNullish (errorDataOf r) = false ->
  messageText r = None ->
  raises (request this transport path method body rt w)
         (networkError "Cannot convert object to primitive value").
Proof.
  intros Hcall Hok Hbody Htext.
  pose proof (request_failure_raises this transport path method body rt w r Hcall Hok) as H.
  unfold thrownByHandleError in H. now rewrite Hbody, Htext in H.
Qed.

Lemma raises_unique {A} (run : Outcome A * World) (e1 e2 : PixwellError) :
  raises run e1 -> raises run e2 -> e1 = e2.
Proof. unfold raises. intros H1 H2. congruence. Qed.

Ltac by_table st :=
  unfold tableClass;
  destruct (st =? 401)%Z; [try reflexivity |];
  destruct (st =? 429)%Z; [try reflexivity |];
  destruct (st =? 400)%Z; [try reflexivity |];
  destruct ((st =? 500) || (st =? 502) || (st =? 503))%Z; try reflexivity.

Lemma classified_cls (r : Response) (text : string) :
  cls (classified r text) = tableClass (status r).
Proof. unfold classified. by_table (status r). Qed.

Lemma classified_message (r : Response) (text : string) :
  message (classified r text) = text.
Proof. unfold classified. by_table (status r). Qed.

(** A body that cannot be decoded does not throw out of [handleError]: the
    defaults apply. *)
Lemma undecodable_body_defaults (r : Response) (t : Thrown) :
  json r = Threw t ->
  isNullish (errorDataOf r) = false /\
  messageText r = Some (genericMessage (status r)) /\
  decodedCode r = JUndefined.
Proof.
  intros H. unfold messageText, decodedMessage, decodedCode, errorDataOf.
  rewrite H. repeat split.
Qed.

Lemma classified_code (r : Response) (text : string) :
  match fixedCode (tableClass (status r)) with
  | Some c => code (classified r text) = JString c
  | None =>
      code (classified r text) = coalesce (decodedCode r) (JString "UNKNOWN_ERROR")
  end.
Proof. unfold classified. by_table (status r). Qed.

Lemma rethrown_NetworkError_code (this : Pixwell) (errName errMessage : string) :
  cls (rethrown this (ThrowError errName errMessage)) = NetworkErrorC /\
  code (rethrown this (ThrowError errName errMessage)) = JString "NETWORK_ERROR".
Proof. cbn. destruct (String.eqb errName "AbortError"); split; reflexivity. Qed.

(** *** [parseInt] on decimal numerals *)

Lemma digitsPrefix_allDigits (s : string) (a : Z) :
  JS.allDigits s = true ->
  JS.digitsPrefix (Some a) s
  = Some (fold_left
            (fun acc c =>
               (10 * acc + match JS.digitValue c with Some d => d | None => 0 end)%Z)
            (list_ascii_of_string s) a).
Proof.
  revert a. induction s as [| c rest IH]; intros a H; [reflexivity |].
  cbn [JS.allDigits] in H. cbn [JS.digitsPrefix list_ascii_of_string fold_left].
  destruct (JS.digitValue c) as [d |]; [| discriminate].
  now apply IH.
Qed.

Lemma parseInt_numeral (s : string) :
  JS.isDecimalNumeral s = true -> JS.parseInt s = JS.Int (JS.numeralValue s).
Proof.
  destruct s as [| c rest]; [discriminate |].
  unfold JS.isDecimalNumeral. cbn [JS.allDigits].
  destruct (JS.digitValue c) as [d |] eqn:Hd; [| discriminate].
  intros Hrest.
  assert (Hc : JS.parseInt (String c rest)
               = match JS.digitsPrefix None (String c rest) with
                 | Some m => JS.Int (1 * m)
                 | None => JS.NaN
                 end).
  { destruct c as [[] [] [] [] [] [] [] []]; try discriminate Hd; reflexivity. }
  rewrite Hc. cbn [JS.digitsPrefix]. rewrite Hd.
  rewrite digitsPrefix_allDigits by assumption.
  unfold JS.numeralValue. cbn [list_ascii_of_string fold_left]. rewrite Hd.
  now rewrite Z.mul_1_l.
Qed.

(** *** Construction *)

(** C2. Constructing the client with a missing or an empty credential throws
    the validation error for field "apiKey"; and construction, whether it
    fails or succeeds, leaves the world untouched: no timer is set and no
    call reaches the transport. *)
Theorem constructor_requires_credential (options : PixwellClientOptions) (w : World) :
  opt_apiKey options = None \/ opt_apiKey options = Some "" ->
  (exists e,
      new_Pixwell options w = (Threw (ThrowPixwell e), w) /\
      cls e = ValidationErrorC /\
      message e = "API key is required" /\
      field e = Some "apiKey") /\
  (forall anyOptions, snd (new_Pixwell anyOptions w) = w).
Proof.
  intros Hkey. split.
  - exists (mkPixwellError ValidationErrorC "API key is required"
              (JString "VALIDATION_ERROR") (Some 400%Z) None (Some "apiKey")).
    unfold new_Pixwell. destruct Hkey as [H | H]; rewrite H; cbn; auto.
  - intros anyOptions. unfold new_Pixwell.
    destruct (isFalsy (opt_apiKey anyOptions)); reflexivity.
Qed.

(** *** Timeout and propagation *)

(** C7. When the transport has not settled by the time the timer fires, the
    timer fires, the call is aborted, and [request] throws a network error
    whose message is "Request timed out after <timeout>ms" with the
    configured timeout. *)
Theorem timeout_abort_raises_network_error (this : Pixwell) (transport : Transport)
    (path : string) (method : Method) (body : option string) (rt : ResponseType)
    (w : World) :
  callOf this transport path method body w = Stalls ->
  exists e,
    raises (request this transport path method body rt w) e /\
    cls e = NetworkErrorC /\
    message e = "Request timed out after " ++ JS.Number_toString (timeout this) ++ "ms" /\
    In (EvTimerFired (nextTimer w))
       (trace (snd (request this transport path method body rt w))).
Proof.
  intros Hcall. exists (networkError (timeoutMessage this)).
  split; [| split; [reflexivity | split; [reflexivity |]]].
  - unfold raises. now rewrite request_outcome, Hcall.
  - unfold callOf in Hcall.
    unfold request, requestTry, tryCatch, bind, fetch.
    cbn [setTimeout fst snd nextTimer record pending trace].
    rewrite Hcall. rewrite requestCatch_throws. world_step.
    rewrite !in_app_iff. left. right. now left.
Qed.

(** C6. A typed error raised inside [request] reaches the caller as it is:
    the error the classifier throws for a failed response, any
    [PixwellError] thrown while the call is in flight, and the timeout
    error, which is not replaced by a network error carrying the abort's
    own message. *)
Theorem typed_errors_propagate_unchanged (this : Pixwell) (transport : Transport)
    (path : string) (method : Method) (body : option string) (rt : ResponseType)
    (w : World) :
  (forall r e w0,
      callOf this transport path method body w = Resolves r ->
      ok r = false ->
      fst (handleError r w0) = Threw (ThrowPixwell e) ->
      raises (request this transport path method body rt w) e) /\
  (forall e,
      callOf this transport path method body w = Rejects (ThrowPixwell e) ->
      raises (request this transport path method body rt w) e) /\
  (forall id e w0,
      fst (@requestCatch (RequestResult rt) this id (ThrowPixwell e) w0)
      = Threw (ThrowPixwell e)) /\
  (callOf this transport path method body w = Stalls ->
   raises (request this transport path method body rt w)
          (networkError (timeoutMessage this)) /\
   ~ raises (request this transport path method body rt w)
            (networkError "This operation was aborted")).
Proof.
  split; [| split; [| split; [| intros H; split]]].
  - intros r e w0 Hcall Hok Hthrown.
    rewrite handleError_throws in Hthrown. cbn [fst] in Hthrown.
    pose proof (request_failure_raises this transport path method body rt w r Hcall Hok) as H.
    injection Hthrown as Hthrown. now rewrite Hthrown in H.
  - intros e Hcall. unfold raises. now rewrite request_outcome, Hcall.
  - intros id e w0. now rewrite requestCatch_throws.
  - unfold raises. now rewrite request_outcome, H.
  - unfold raises. rewrite request_outcome, H. intros Heq.
    injection Heq as Heq. discriminate Heq.
Qed.

(** C8. Whatever the transport does and however reading the body ends
    (success, failed status, network failure, timeout abort, body that does
    not decode), when [request] completes its timer is no longer pending,
    every timer still pending was pending before the call, and the last
    event of the call is the cancellation of its timer. *)
Theorem timer_cancelled_on_every_exit (this : Pixwell) (transport : Transport)
    (path : string) (method : Method) (body : option string) (rt : ResponseType)
    (w : World) :
  let id := nextTimer w in
  let w' := snd (request this transport path method body rt w) in
  ~ In id (pending w') /\
  incl (pending w') (pending w) /\
  exists between,
    trace w' = (trace w ++ EvSetTimeout id (timeout this)
                          :: between ++ [EvClearTimeout id])%list.
Proof.
  cbn zeta.
  destruct (request_world this transport path method body rt w) as [Hp Ht].
  repeat split.
  - rewrite Hp. apply remove_In.
  - rewrite Hp. intros t Hin. now apply in_remove in Hin.
  - exact Ht.
Qed.

(** *** The capture result *)

(** C3 (as the code has it). Every capture call that returns was answered by
    a 2xx response whose body was read in full, and its result carries: the
    payload; the content-type header, or "application/octet-stream" without
    one; the payload's byte length; as duration, [parseInt] of the
    x-duration-ms header (its numeric value when the header is a decimal
    numeral, otherwise whatever [parseInt] yields, NaN included) and 0
    without the header; and [cached] true exactly when the x-cache header
    is "HIT". *)
Theorem screenshot_result_fields (this : Pixwell) (transport : Transport)
    (options : JsValue) (w : World) (res : ScreenshotResponse) :
  fst (screenshot this transport options w) = Returned res ->
  exists r bytes,
    callOf this transport "/api/v1/screenshot" POST
           (Some (JSON_stringify options)) w = Resolves r /\
    ok r = true /\
    arrayBuffer r = Returned bytes /\
    data res = bytes /\
    contentType res
    = orElse (Headers.get (headers r) "content-type") "application/octet-stream" /\
    size res = Z.of_nat (List.length bytes) /\
    durationMs res
    = match Headers.get (headers r) "x-duration-ms" with
      | Some v => JS.parseInt v
      | None => JS.Int 0
      end /\
    (forall v, Headers.get (headers r) "x-duration-ms" = Some v ->
               JS.isDecimalNumeral v = true ->
               durationMs res = JS.Int (JS.numeralValue v)) /\
    (cached res = true <-> Headers.get (headers r) "x-cache" = Some "HIT").
Proof.
  intros Hres. unfold screenshot, bind in Hres.
  pose proof (request_outcome this transport "/api/v1/screenshot" POST
                (Some (JSON_stringify options)) RTarrayBuffer w) as Hout.
  destruct (request this transport "/api/v1/screenshot" POST
              (Some (JSON_stringify options)) RTarrayBuffer w) as [o w'].
  cbn [fst] in Hout. subst o.
  destruct (callOf this transport "/api/v1/screenshot" POST
              (Some (JSON_stringify options)) w) as [r | t |]; try discriminate Hres.
  destruct (ok r) eqn:Hok; [| discriminate Hres].
  cbn [bodyOf] in Hres.
  destruct (arrayBuffer r) as [bytes | t] eqn:Hbody; [| discriminate Hres].
  cbn in Hres. injection Hres as Hres. subst res.
  exists r, bytes. cbn [data contentType size durationMs cached].
  repeat split; try reflexivity; try assumption.
  - destruct (Headers.get (headers r) "x-duration-ms"); reflexivity.
  - intros v Hv Hnum. rewrite Hv. cbn [orElse]. now apply parseInt_numeral.
  - destruct (Headers.get (headers r) "x-cache") as [v |]; [| discriminate].
    intros H. apply String.eqb_eq in H. now subst v.
  - intros H. rewrite H. reflexivity.
Qed.

(** *** Fields of the classified errors *)

(** The two ways a failed response ends: the error of the dispatch table
    with the converted message, or, when reading [errorData.error] or
    converting the message throws, a network error without status. *)
Lemma failure_cases (this : Pixwell) (transport : Transport) (path : string)
    (method : Method) (body : option string) (rt : ResponseType) (w : World)
    (r : Response) (e : PixwellError) :
  callOf this transport path method body w = Resolves r ->
  ok r = false ->
  raises (request this transport path method body rt w) e ->
  (isNullish (errorDataOf r) = false /\
   exists text, messageText r = Some text /\ e = classified r text) \/
  ((isNullish (errorDataOf r) = true \/ messageText r = None) /\
   exists text, e = networkError text).
Proof.
  intros Hcall Hok He.
  pose proof (request_failure_raises this transport path method body rt w r Hcall Hok) as Hr.
  rewrite (raises_unique _ _ _ He Hr). clear He Hr e.
  unfold thrownByHandleError.
  destruct (isNullish (errorDataOf r)).
  - right. split; [now left |]. cbn [rethrown]. cbn [String.eqb Ascii.eqb Bool.eqb].
    eexists. reflexivity.
  - destruct (messageText r) as [text |].
    + left. split; [reflexivity |]. exists text. split; reflexivity.
    + right. split; [now right |]. eexists. reflexivity.
Qed.

(** C4 (as the code has it). For a response with status 429, a rate-limit
    error is raised when the decoded body is not [null] and the decoded
    message converts to a string, and the raised rate-limit error's
    [retryAfter] is [parseInt] of the retry-after header when that header is
    present and not empty (the numeric value for a decimal numeral; NaN when
    no integer can be read from its start), and undefined when the header is
    absent or empty. *)
Theorem rate_limit_retry_after (this : Pixwell) (transport : Transport)
    (path : string) (method : Method) (body : option string) (rt : ResponseType)
    (w : World) (r : Response) :
  callOf this transport path method body w = Resolves r ->
  status r = 429%Z ->
  (isNullish (errorDataOf r) = false ->
   converts (decodedMessage r) = true ->
   exists e, raises (request this transport path method body rt w) e /\
             cls e = RateLimitErrorC) /\
  (forall e,
      raises (request this transport path method body rt w) e ->
      cls e = RateLimitErrorC ->
      retryAfter e
      = match Headers.get (headers r) "retry-after" with
        | Some v => if JS.truthy v then Some (JS.parseInt v) else None
        | None => None
        end /\
      (forall v, Headers.get (headers r) "retry-after" = Some v ->
                 JS.isDecimalNumeral v = true ->
                 retryAfter e = Some (JS.Int (JS.numeralValue v)))).
Proof.
  intros Hcall Hst.
  assert (Hok : ok r = false) by (unfold ok; now rewrite Hst).
  assert (Hcl : forall text,
             classified r text
             = mkPixwellError RateLimitErrorC text (JString "RATE_LIMIT_ERROR")
                 (Some 429%Z) (retryAfterOf (headers r)) None).
  { intros text. unfold classified. now rewrite Hst. }
  split.
  - intros Hbody Hconv. destruct (converts_messageText r Hconv) as [text Htext].
    exists (classified r text).
    split; [now apply request_failure_raises_classified |]. now rewrite Hcl.
  - intros e He Hcls.
    destruct (failure_cases this transport path method body rt w r e Hcall Hok He)
      as [[_ [text [_ Heq]]] | [_ [text Heq]]]; subst e;
      [| discriminate Hcls].
    rewrite Hcl. cbn [retryAfter]. unfold retryAfterOf. split; [reflexivity |].
    intros v Hv Hnum. rewrite Hv.
    destruct v as [| c rest]; [discriminate Hnum |].
    cbn [JS.truthy]. now rewrite parseInt_numeral.
Qed.

(** C9. For a response with status 502 or 503, a capture error is raised
    when the decoded body is not [null] and the decoded message converts to
    a string, and the raised capture error's [statusCode] is 500, which is
    not the status of the response. *)
Theorem capture_error_status_is_500 (this : Pixwell) (transport : Transport)
    (path : string) (method : Method) (body : option string) (rt : ResponseType)
    (w : World) (r : Response) :
  callOf this transport path method body w = Resolves r ->
  (status r = 502 \/ status r = 503)%Z ->
  (isNullish (errorDataOf r) = false ->
   converts (decodedMessage r) = true ->
   exists e, raises (request this transport path method body rt w) e /\
             cls e = CaptureErrorC) /\
  (forall e,
      raises (request this transport path method body rt w) e ->
      cls e = CaptureErrorC ->
      statusCode e = Some 500%Z /\ statusCode e <> Some (status r)).
Proof.
  intros Hcall Hst.
  assert (Hok : ok r = false) by (unfold ok; destruct Hst as [H | H]; now rewrite H).
  assert (Hcl : forall text,
             classified r text
             = mkPixwellError CaptureErrorC text (JString "CAPTURE_ERROR")
                 (Some 500%Z) None None).
  { intros text. unfold classified. destruct Hst as [H | H]; now rewrite H. }
  split.
  - intros Hbody Hconv. destruct (converts_messageText r Hconv) as [text Htext].
    exists (classified r text).
    split; [now apply request_failure_raises_classified |]. now rewrite Hcl.
  - intros e He Hcls.
    destruct (failure_cases this transport path method body rt w r e Hcall Hok He)
      as [[_ [text [_ Heq]]] | [_ [text Heq]]]; subst e;
      [| discriminate Hcls].
    rewrite Hcl. cbn [statusCode]. split; [reflexivity |].
    destruct Hst as [H | H]; rewrite H; discriminate.
Qed.

Lemma special_status_class (st : Z) :
  In st specialStatuses ->
  exists c, fixedCode (tableClass st) = Some c /\
            In c ["AUTHENTICATION_ERROR"; "RATE_LIMIT_ERROR";
                  "VALIDATION_ERROR"; "CAPTURE_ERROR"].
Proof.
  unfold specialStatuses. cbn [In].
  intros [H | [H | [H | [H | [H | [H | []]]]]]]; subst st; cbn;
    eexists; (split; [reflexivity |]); cbn [In]; auto 6.
Qed.

Lemma other_status_class (st : Z) :
  ~ In st specialStatuses -> tableClass st = PixwellErrorC.
Proof.
  unfold specialStatuses, tableClass. cbn [In]. intros Hnot.
  destruct (Z.eqb_spec st 401); [subst st; exfalso; apply Hnot; auto 8 |].
  destruct (Z.eqb_spec st 429); [subst st; exfalso; apply Hnot; auto 8 |].
  destruct (Z.eqb_spec st 400); [subst st; exfalso; apply Hnot; auto 8 |].
  destruct (Z.eqb_spec st 500); [subst st; exfalso; apply Hnot; auto 8 |].
  destruct (Z.eqb_spec st 502); [subst st; exfalso; apply Hnot; auto 8 |].
  destruct (Z.eqb_spec st 503); [subst st; exfalso; apply Hnot; auto 8 |].
  reflexivity.
Qed.

(** X21. For a failed response with one of the statuses 401, 429, 400, 500,
    502, 503 the raised error's [code] is the constant of its class and
    never the decoded code; an error of the base class is raised only for
    other statuses and carries the decoded code, or "UNKNOWN_ERROR", and the
    status; and when the decoded body is not [null] and the decoded message
    converts to a string the class is the one the status selects. *)
Theorem decoded_code_only_on_generic_error (this : Pixwell) (transport : Transport)
    (path : string) (method : Method) (body : option string) (rt : ResponseType)
    (w : World) (r : Response) (e : PixwellError) :
  callOf this transport path method body w = Resolves r ->
  ok r = false ->
  raises (request this transport path method body rt w) e ->
  (In (status r) specialStatuses ->
   exists c, fixedCode (cls e) = Some c /\ code e = JString c) /\
  (cls e = PixwellErrorC ->
   ~ In (status r) specialStatuses /\
   statusCode e = Some (status r) /\
   code e = coalesce (decodedCode r) (JString "UNKNOWN_ERROR")) /\
  (isNullish (errorDataOf r) = false ->
   converts (decodedMessage r) = true ->
   cls e = tableClass (status r)).
Proof.
  intros Hcall Hok He.
  destruct (failure_cases this transport path method body rt w r e Hcall Hok He)
    as [[Hbody [text [Htext Heq]]] | [Hwhy [text Heq]]]; subst e.
  - pose proof (classified_code r text) as Hcode.
    rewrite classified_cls. split; [| split].
    + intros Hin. destruct (special_status_class _ Hin) as [c [Hc _]].
      rewrite Hc in Hcode. exists c. split; assumption.
    + intros Hcls. rewrite Hcls in Hcode. cbn [fixedCode] in Hcode.
      split; [| split; [| exact Hcode]].
      * intros Hin. destruct (special_status_class _ Hin) as [c [Hc _]].
        rewrite Hcls in Hc. discriminate Hc.
      * unfold classified. now rewrite Hcls.
    + reflexivity.
  - split; [| split].
    + intros _. exists "NETWORK_ERROR". split; reflexivity.
    + discriminate.
    + intros Hbody Hconv. destruct (converts_messageText r Hconv) as [t Ht].
      destruct Hwhy as [Hnull | Hnone]; congruence.
Qed.

(** *** The executor's protocol *)

(** The exact events of one call, by what the transport does. *)
Lemma request_trace (this : Pixwell) (transport : Transport) (path : string)
    (method : Method) (body : option string) (rt : ResponseType) (w : World) :
  trace (snd (request this transport path method body rt w))
  = (trace w
     ++ EvSetTimeout (nextTimer w) (timeout this)
        :: EvFetch (baseUrl this ++ path)%string (requestInit this method body (nextTimer w))
        :: closingEvents rt (nextTimer w)
             (callOf this transport path method body w))%list.
Proof.
  unfold request, requestTry, tryCatch, bind, fetch, callOf, closingEvents.
  cbn [setTimeout fst snd nextTimer record pending trace].
  destruct (transport _ _) as [r | t | ].
  - world_step. destruct (ok r); cbn [negb].
    + unfold ret at 1. unfold readBody, bodyOf, await.
      destruct rt; [destruct (json r) as [d | t] | destruct (arrayBuffer r) as [d | t]];
        world_step; rewrite ?requestCatch_throws; trace_done.
    + rewrite handleError_throws, requestCatch_throws. trace_done.
  - rewrite requestCatch_throws. trace_done.
  - rewrite requestCatch_throws. trace_done.
Qed.

Lemma fetchCalls_closingEvents (rt : ResponseType) (id : nat) (o : FetchOutcome) :
  fetchCalls (closingEvents rt id o) = [].
Proof.
  unfold closingEvents. destruct o as [r | t |]; try reflexivity.
  destruct (ok r); [destruct (bodyOf rt r) |]; reflexivity.
Qed.

(** X1. One call of [request] calls the transport exactly once (no retry on
    any path): to the base address followed by the path, with the given
    method and body, guarded by the call's own timer, and with the bearer
    credential, the JSON content type (also on a call without body) and the
    client identifier as headers. *)
Theorem request_calls_transport_once (this : Pixwell) (transport : Transport)
    (path : string) (method : Method) (body : option string) (rt : ResponseType)
    (w : World) :
  fetchCalls (trace (snd (request this transport path method body rt w)))
  = (fetchCalls (trace w)
     ++ [((baseUrl this ++ path)%string,
          {| init_method := method;
             init_headers := [("Authorization", ("Bearer " ++ apiKey this)%string);
                              ("Content-Type", "application/json");
                              ("User-Agent", "pixwell-js/1.0.0")];
             init_body := body;
             init_signal := nextTimer w |})])%list.
Proof.
  rewrite request_trace. unfold fetchCalls at 1. rewrite flat_map_app.
  cbn [flat_map]. fold (fetchCalls (trace w)).
  fold (fetchCalls (closingEvents rt (nextTimer w)
                      (callOf this transport path method body w))).
  now rewrite fetchCalls_closingEvents.
Qed.

(** X2. [request] returns a value only when the transport delivered a 2xx
    response whose body could be read in the requested mode; the value is
    that decoded body together with the response's headers. *)
Theorem request_returns_only_on_success (this : Pixwell) (transport : Transport)
    (path : string) (method : Method) (body : option string) (rt : ResponseType)
    (w : World) (res : RequestResult rt) :
  fst (request this transport path method body rt w) = Returned res ->
  exists r,
    callOf this transport path method body w = Resolves r /\
    (200 <= status r <= 299)%Z /\
    bodyOf rt r = Returned (res_data res) /\
    res_headers res = headers r.
Proof.
  rewrite request_outcome.
  destruct (callOf this transport path method body w) as [r | t |]; try discriminate.
  destruct (ok r) eqn:Hok; [| discriminate].
  destruct (bodyOf rt r) as [d | t] eqn:Hbody; [| discriminate].
  intros H. injection H as H. subst res. exists r. cbn [res_data res_headers].
  unfold ok in Hok. apply andb_true_iff in Hok. destruct Hok as [Hlo Hhi].
  apply Z.leb_le in Hlo. apply Z.leb_le in Hhi.
  split; [reflexivity | split; [lia | split; [exact Hbody | reflexivity]]].
Qed.

(** X3. Whatever [request] throws is a [PixwellError]: transport failures,
    aborts, TypeErrors and thrown non-errors never reach the caller raw. *)
Theorem request_throws_only_PixwellError (this : Pixwell) (transport : Transport)
    (path : string) (method : Method) (body : option string) (rt : ResponseType)
    (w : World) (t : Thrown) :
  fst (request this transport path method body rt w) = Threw t ->
  exists e, t = ThrowPixwell e.
Proof.
  rewrite request_outcome.
  destruct (callOf this transport path method body w) as [r | t0 |].
  - destruct (ok r); [destruct (bodyOf rt r) as [d | t0] |]; try discriminate;
      intros H; injection H as H; eauto.
  - intros H; injection H as H; eauto.
  - intros H; injection H as H; eauto.
Qed.

(** X4. A transport rejection that is not a [PixwellError] is raised as a
    network error with code "NETWORK_ERROR" and no status code.  Its message
    is the rejection's own message, except that a rejection named
    "AbortError" gets the timeout message and a rejected value that is not
    an error gets "Unknown error occurred". *)
Theorem network_failure_wrapped (this : Pixwell) (transport : Transport)
    (path : string) (method : Method) (body : option string) (rt : ResponseType)
    (w : World) (t : Thrown) :
  callOf this transport path method body w = Rejects t ->
  (forall e, t <> ThrowPixwell e) ->
  exists e,
    raises (request this transport path method body rt w) e /\
    cls e = NetworkErrorC /\
    code e = JString "NETWORK_ERROR" /\
    statusCode e = None /\
    message e
    = match t with
      | ThrowError errName errMessage =>
          if String.eqb errName "AbortError"
          then "Request timed out after " ++ JS.Number_toString (timeout this) ++ "ms"
          else errMessage
      | _ => "Unknown error occurred"
      end.
Proof.
  intros Hcall Hnot. exists (rethrown this t). split.
  - unfold raises. now rewrite request_outcome, Hcall.
  - destruct t as [e | errName errMessage | v].
    + now elim (Hnot e).
    + cbn [rethrown]. destruct (String.eqb errName "AbortError"); repeat split.
    + repeat split.
Qed.

(** X5. A rejection named "AbortError" that did not come from the call's
    timer is still reported as a timeout: the timer is cleared without
    having fired, and the message is the timeout message. *)
Theorem foreign_abort_reported_as_timeout (this : Pixwell) (transport : Transport)
    (path : string) (method : Method) (body : option string) (rt : ResponseType)
    (w : World) (errMessage : string) :
  callOf this transport path method body w = Rejects (ThrowError "AbortError" errMessage) ->
  raises (request this transport path method body rt w)
         (networkError (timeoutMessage this)) /\
  trace (snd (request this transport path method body rt w))
  = (trace w
     ++ [EvSetTimeout (nextTimer w) (timeout this);
         EvFetch (baseUrl this ++ path)%string (requestInit this method body (nextTimer w));
         EvClearTimeout (nextTimer w)])%list.
Proof.
  intros Hcall. split.
  - unfold raises. now rewrite request_outcome, Hcall.
  - now rewrite request_trace, Hcall.
Qed.

(** X6. A 2xx response whose body cannot be read in the requested mode
    (for instance a body that is not JSON) makes [request] throw a network
    error carrying the read failure's message and no status code. *)
Theorem body_read_failure_is_network_error (this : Pixwell) (transport : Transport)
    (path : string) (method : Method) (body : option string) (rt : ResponseType)
    (w : World) (r : Response) (errName errMessage : string) :
  callOf this transport path method body w = Resolves r ->
  ok r = true ->
  bodyOf rt r = Threw (ThrowError errName errMessage) ->
  String.eqb errName "AbortError" = false ->
  exists e,
    raises (request this transport path method body rt w) e /\
    cls e = NetworkErrorC /\
    message e = errMessage /\
    statusCode e = None.
Proof.
  intros Hcall Hok Hbody Hname.
  exists (networkError errMessage). split; [| repeat split].
  unfold raises. rewrite request_outcome, Hcall, Hok, Hbody. cbn [rethrown].
  now rewrite Hname.
Qed.

(** X7. On a well-formed world a call of [request] leaves the pending timers
    exactly as they were, uses up one timer identifier, and leaves the world
    well-formed: calls do not interfere through timers. *)
Theorem request_preserves_timers (this : Pixwell) (transport : Transport)
    (path : string) (method : Method) (body : option string) (rt : ResponseType)
    (w : World) :
  wellFormed w ->
  pending (snd (request this transport path method body rt w)) = pending w /\
  nextTimer (snd (request this transport path method body rt w)) = S (nextTimer w) /\
  wellFormed (snd (request this transport path method body rt w)).
Proof.
  intros Hwf.
  destruct (request_world this transport path method body rt w) as [Hp _].
  assert (Hfresh : ~ In (nextTimer w) (pending w)).
  { intros Hin. apply Hwf in Hin. lia. }
  rewrite (notin_remove Nat.eq_dec _ _ Hfresh) in Hp.
  assert (Hn : nextTimer (snd (request this transport path method body rt w))
               = S (nextTimer w)).
  { unfold request, requestTry, tryCatch, bind, fetch.
    cbn [setTimeout fst snd nextTimer record pending trace].
    destruct (transport _ _) as [r | t | ].
    - world_step. destruct (ok r); cbn [negb].
      + unfold ret at 1. unfold readBody, await.
        destruct rt; [destruct (json r) | destruct (arrayBuffer r)];
          world_step; rewrite ?requestCatch_throws; reflexivity.
      + now rewrite handleError_throws, requestCatch_throws.
    - now rewrite requestCatch_throws.
    - now rewrite requestCatch_throws. }
  split; [exact Hp | split; [exact Hn |]].
  unfold wellFormed. rewrite Hp, Hn. intros id Hin. apply Hwf in Hin. lia.
Qed.

Lemma request_outcome_any_world (this : Pixwell) (transport : Transport)
    (path : string) (method : Method) (body : option string) (rt : ResponseType)
    (w1 w2 : World) :
  signalBlind transport ->
  fst (request this transport path method body rt w1)
  = fst (request this transport path method body rt w2).
Proof.
  intros Hblind. rewrite !request_outcome.
  assert (Hcall : forall w,
             callOf this transport path method body w
             = transport (baseUrl this ++ path) (requestInit this method body 0)).
  { intros w. unfold callOf.
    change (requestInit this method body (nextTimer w))
      with (withSignal (nextTimer w) (requestInit this method body 0)).
    apply Hblind. }
  now rewrite !Hcall.
Qed.

(** X8. Against a transport that does not look at the guarding timer, the
    outcome of [request] does not depend on the world it starts from:
    repeating a call yields the same value or the same error. *)
Theorem request_outcome_independent_of_world (this : Pixwell) (transport : Transport)
    (path : string) (method : Method) (body : option string) (rt : ResponseType)
    (w1 w2 : World) :
  signalBlind transport ->
  fst (request this transport path method body rt w1)
  = fst (request this transport path method body rt w2).
Proof.
  intros Hblind. now apply request_outcome_any_world.
Qed.

(** *** The classifier on well-formed and malformed bodies *)

(** X9. For a failed response whose decoded body is not [null] and whose
    decoded message converts to a string, [request] raises by status alone:
    401 an authentication error, 429 a rate-limit error, 400 a validation
    error, 500, 502 and 503 a capture error, and any other status a base
    error carrying the status and the decoded code, or "UNKNOWN_ERROR"
    without one. *)
Theorem failed_status_dispatch (this : Pixwell) (transport : Transport)
    (path : string) (method : Method) (body : option string) (rt : ResponseType)
    (w : World) (r : Response) :
  callOf this transport path method body w = Resolves r ->
  ok r = false ->
  isNullish (errorDataOf r) = false ->
  converts (decodedMessage r) = true ->
  exists e,
    raises (request this transport path method body rt w) e /\
    (status r = 401%Z -> cls e = AuthenticationErrorC) /\
    (status r = 429%Z -> cls e = RateLimitErrorC) /\
    (status r = 400%Z -> cls e = ValidationErrorC) /\
    ((status r = 500 \/ status r = 502 \/ status r = 503)%Z -> cls e = CaptureErrorC) /\
    (~ In (status r) specialStatuses ->
     cls e = PixwellErrorC /\
     statusCode e = Some (status r) /\
     code e = coalesce (decodedCode r) (JString "UNKNOWN_ERROR")).
Proof.
  intros Hcall Hok Hbody Hconv.
  destruct (converts_messageText r Hconv) as [text Htext].
  exists (classified r text).
  split; [now apply request_failure_raises_classified |].
  rewrite classified_cls.
  split; [intros H; now rewrite H |].
  split; [intros H; now rewrite H |].
  split; [intros H; now rewrite H |].
  split; [intros [H | [H | H]]; now rewrite H |].
  intros Hother. pose proof (other_status_class _ Hother) as Hclass.
  split; [exact Hclass |]. unfold classified. rewrite Hclass. split; reflexivity.
Qed.

(** X10. For a failed response whose decoded body is not [null] and whose
    decoded [error.message] converts to the string [text], the raised
    error's message is "Request failed with status <status>" when the
    decoded message is missing or [null], and [text] otherwise; a decoded
    string, the empty one included, is taken as it is. *)
Theorem failed_status_message (this : Pixwell) (transport : Transport)
    (path : string) (method : Method) (body : option string) (rt : ResponseType)
    (w : World) (r : Response) (text : string) :
  callOf this transport path method body w = Resolves r ->
  ok r = false ->
  isNullish (errorDataOf r) = false ->
  ToString (decodedMessage r) = Some text ->
  exists e,
    raises (request this transport path method body rt w) e /\
    message e
    = (if isNullish (decodedMessage r)
       then "Request failed with status " ++ JS.Number_toString (status r)
       else text) /\
    (forall s, decodedMessage r = JString s -> message e = s).
Proof.
  intros Hcall Hok Hbody Hconv.
  pose proof (messageText_spec r) as Hspec. rewrite Hconv in Hspec.
  exists (classified r (if isNullish (decodedMessage r)
                        then genericMessage (status r) else text)).
  split.
  - apply request_failure_raises_classified; try assumption.
    rewrite Hspec. destruct (isNullish (decodedMessage r)); reflexivity.
  - rewrite classified_message. split; [reflexivity |].
    intros s Hs. rewrite Hs in Hconv |- *. cbn in Hconv |- *. congruence.
Qed.

(** X22. For a failed response whose decoded body is not [null] but whose
    decoded message cannot be converted to a string (an object with an own
    key "toString", or an array holding one), whatever the status,
    [request] raises a network error with the conversion's message, the
    code "NETWORK_ERROR" and no status code. *)
Theorem unconvertible_message_masks_status (this : Pixwell) (transport : Transport)
    (path : string) (method : Method) (body : option string) (rt : ResponseType)
    (w : World) (r : Response) :
  callOf this transport path method body w = Resolves r ->
  ok r = false ->
  isNullish (errorDataOf r) = false ->
  converts (decodedMessage r) = false ->
  exists e,
    raises (request this transport path method body rt w) e /\
    cls e = NetworkErrorC /\
    message e = "Cannot convert object to primitive value" /\
    code e = JString "NETWORK_ERROR" /\
    statusCode e = None.
Proof.
  intros Hcall Hok Hbody Hconv.
  exists (networkError "Cannot convert object to primitive value").
  split; [| repeat split].
  apply (request_failure_unconvertible this transport path method body rt w r);
    try assumption.
  rewrite messageText_spec. unfold converts in Hconv.
  destruct (ToString (decodedMessage r)) eqn:Hto; [discriminate Hconv |].
  destruct (isNullish (decodedMessage r)) eqn:Hn; [| reflexivity].
  destruct (decodedMessage r); discriminate.
Qed.

(** X11. A failed response whose body cannot be decoded at all is raised
    with the defaults, whatever the decoding threw: the class of the status,
    the generic message, and for the base class the code "UNKNOWN_ERROR"
    with the status. *)
Theorem undecodable_error_body_uses_defaults (this : Pixwell) (transport : Transport)
    (path : string) (method : Method) (body : option string) (rt : ResponseType)
    (w : World) (r : Response) (t : Thrown) :
  callOf this transport path method body w = Resolves r ->
  ok r = false ->
  json r = Threw t ->
  exists e,
    raises (request this transport path method body rt w) e /\
    cls e = tableClass (status r) /\
    message e = "Request failed with status " ++ JS.Number_toString (status r) /\
    (cls e = PixwellErrorC ->
     code e = JString "UNKNOWN_ERROR" /\ statusCode e = Some (status r)).
Proof.
  intros Hcall Hok Hjson.
  destruct (undecodable_body_defaults r t Hjson) as [Hbody [Htext Hcode]].
  exists (classified r (genericMessage (status r))).
  split; [now apply request_failure_raises_classified |].
  split; [apply classified_cls |].
  split; [apply classified_message |].
  rewrite classified_cls. intros Hclass. unfold classified. rewrite Hclass, Hcode.
  split; reflexivity.
Qed.

(** X12. A failed response whose decoded body is not [null] but whose
    [error] property is missing or is not an object (a string, a number, an
    array, [null]) is raised with the generic message, and for the base
    class with the code "UNKNOWN_ERROR". *)
Theorem shapeless_error_body_uses_defaults (this : Pixwell) (transport : Transport)
    (path : string) (method : Method) (body : option string) (rt : ResponseType)
    (w : World) (r : Response) :
  callOf this transport path method body w = Resolves r ->
  ok r = false ->
  isNullish (errorDataOf r) = false ->
  isObject (member (errorDataOf r) "error") = false ->
  exists e,
    raises (request this transport path method body rt w) e /\
    cls e = tableClass (status r) /\
    message e = "Request failed with status " ++ JS.Number_toString (status r) /\
    (cls e = PixwellErrorC -> code e = JString "UNKNOWN_ERROR").
Proof.
  intros Hcall Hok Hbody Hshape.
  assert (Hm : forall k, optionalMember (member (errorDataOf r) "error") k = JUndefined).
  { intros k. unfold optionalMember.
    destruct (member (errorDataOf r) "error"); try reflexivity. discriminate Hshape. }
  assert (Htext : messageText r = Some (genericMessage (status r))).
  { unfold messageText, decodedMessage. now rewrite Hm. }
  exists (classified r (genericMessage (status r))).
  split; [now apply request_failure_raises_classified |].
  split; [apply classified_cls |].
  split; [apply classified_message |].
  rewrite classified_cls. intros Hclass. unfold classified. rewrite Hclass.
  unfold decodedCode. now rewrite Hm.
Qed.

(** X13. For a failed response whose decoded body is not [null], whose
    decoded message converts to a string, and whose status is neither 502
    nor 503, the raised error's [statusCode] is the status of the
    response. *)
Theorem status_code_is_response_status (this : Pixwell) (transport : Transport)
    (path : string) (method : Method) (body : option string) (rt : ResponseType)
    (w : World) (r : Response) :
  callOf this transport path method body w = Resolves r ->
  ok r = false ->
  isNullish (errorDataOf r) = false ->
  converts (decodedMessage r) = true ->
  status r <> 502%Z ->
  status r <> 503%Z ->
  exists e,
    raises (request this transport path method body rt w) e /\
    statusCode e = Some (status r).
Proof.
  intros Hcall Hok Hbody Hconv H502 H503.
  destruct (converts_messageText r Hconv) as [text Htext].
  exists (classified r text).
  split; [now apply request_failure_raises_classified |].
  unfold classified, tableClass.
  destruct (Z.eqb_spec (status r) 401) as [E | _]; [now rewrite E |].
  destruct (Z.eqb_spec (status r) 429) as [E | _]; [now rewrite E |].
  destruct (Z.eqb_spec (status r) 400) as [E | _]; [now rewrite E |].
  destruct (Z.eqb_spec (status r) 500) as [E | _]; [now rewrite E |].
  destruct (Z.eqb_spec (status r) 502) as [E | _]; [contradiction |].
  destruct (Z.eqb_spec (status r) 503) as [E | _]; [contradiction |].
  reflexivity.
Qed.

(** X14. An error raised for a failed response never names a field, and it
    carries a retry-after value only when the status is 429 and it is a
    rate-limit error. *)
Theorem extra_fields_of_raised_errors (this : Pixwell) (transport : Transport)
    (path : string) (method : Method) (body : option string) (rt : ResponseType)
    (w : World) (r : Response) (e : PixwellError) :
  callOf this transport path method body w = Resolves r ->
  ok r = false ->
  raises (request this transport path method body rt w) e ->
  field e = None /\
  (retryAfter e <> None -> status r = 429%Z /\ cls e = RateLimitErrorC).
Proof.
  intros Hcall Hok He.
  destruct (failure_cases this transport path method body rt w r e Hcall Hok He)
    as [[_ [text [_ Heq]]] | [_ [text Heq]]]; subst e.
  - unfold classified, tableClass.
    destruct (Z.eqb_spec (status r) 401) as [E | _];
      [split; [reflexivity | intros H; now elim H] |].
    destruct (Z.eqb_spec (status r) 429) as [E | _];
      [split; [reflexivity | intros _; now split] |].
    destruct (Z.eqb_spec (status r) 400) as [E | _];
      [split; [reflexivity | intros H; now elim H] |].
    destruct ((status r =? 500) || (status r =? 502) || (status r =? 503))%Z;
      (split; [reflexivity | intros H; now elim H]).
  - split; [reflexivity | intros H; now elim H].
Qed.

(** *** The public operations and the configuration *)

Lemma bind_ret_fst {A B} (c : Async A) (f : A -> B) (w : World) :
  fst (bind c (fun a => ret (f a)) w)
  = match fst (c w) with
    | Returned a => Returned (f a)
    | Threw t => Threw t
    end.
Proof. unfold bind, ret. destruct (c w) as [[a | t] w']; reflexivity. Qed.


(** X15. [batch] posts the serialized options to "/api/v1/batch" and, on a
    2xx response whose body decodes, returns the decoded body exactly as it
    is. *)
Theorem batch_returns_decoded_body (this : Pixwell) (transport : Transport)
    (options : JsValue) (w : World) (r : Response) (v : JsValue) :
  callOf this transport "/api/v1/batch" POST (Some (JSON_stringify options)) w
  = Resolves r ->
  ok r = true ->
  json r = Returned v ->
  fst (batch this transport options w) = Returned v.
Proof.
  intros Hcall Hok Hjson. unfold batch.
  rewrite (bind_ret_fst _ (@res_data RTjson)).
  rewrite request_outcome, Hcall, Hok. cbn [bodyOf]. now rewrite Hjson.
Qed.

(** X16. Against a transport that does not look at the guarding timer, the
    usage query issued again right after itself ends the same way: with the
    same decoded snapshot or the same error. *)
Theorem usage_is_repeatable (this : Pixwell) (transport : Transport) (w : World) :
  signalBlind transport ->
  fst (usage this transport (snd (usage this transport w)))
  = fst (usage this transport w).
Proof.
  intros Hblind. unfold usage.
  rewrite !(bind_ret_fst _ (@res_data RTjson)).
  now rewrite (request_outcome_any_world this transport "/api/v1/usage" GET None RTjson
                 _ w Hblind).
Qed.

(** X17. [screenshot] returns no result for a failed response: with a
    decoded body other than [null] and a decoded message that converts to a
    string it throws the error of the status's class, unchanged from
    [request]. *)
Theorem screenshot_raises_classified_error (this : Pixwell) (transport : Transport)
    (options : JsValue) (w : World) (r : Response) :
  callOf this transport "/api/v1/screenshot" POST (Some (JSON_stringify options)) w
  = Resolves r ->
  ok r = false ->
  isNullish (errorDataOf r) = false ->
  converts (decodedMessage r) = true ->
  exists e,
    raises (screenshot this transport options w) e /\
    raises (request this transport "/api/v1/screenshot" POST
              (Some (JSON_stringify options)) RTarrayBuffer w) e /\
    cls e = tableClass (status r).
Proof.
  intros Hcall Hok Hbody Hconv.
  destruct (converts_messageText r Hconv) as [text Htext].
  exists (classified r text).
  pose proof (request_failure_raises_classified this transport "/api/v1/screenshot" POST
                (Some (JSON_stringify options)) RTarrayBuffer w r text
                Hcall Hok Hbody Htext) as Hr.
  split; [| split; [exact Hr | apply classified_cls]].
  unfold raises in *. unfold screenshot, bind.
  destruct (request this transport "/api/v1/screenshot" POST
              (Some (JSON_stringify options)) RTarrayBuffer w) as [o w'].
  cbn [fst] in Hr. now rewrite Hr.
Qed.

(** X18. Construction succeeds exactly when the credential is present and
    not the empty string. *)
Theorem constructor_succeeds_iff_credential (options : PixwellClientOptions) (w : World) :
  (exists client, fst (new_Pixwell options w) = Returned client)
  <-> (exists key, opt_apiKey options = Some key /\ key <> "").
Proof.
  unfold new_Pixwell. destruct (opt_apiKey options) as [[| c rest] |]; cbn; split.
  - intros [client H]. discriminate H.
  - intros [key [H Hne]]. injection H as H. now elim Hne.
  - intros _. exists (String c rest). split; [reflexivity | discriminate].
  - intros _. eexists. reflexivity.
  - intros [client H]. discriminate H.
  - intros [key [H _]]. discriminate H.
Qed.

Lemma stripTrailingSlash_spec (s : string) :
  if endsWithSlash s
  then s = JS.stripTrailingSlash s ++ "/"
  else JS.stripTrailingSlash s = s.
Proof.
  induction s as [| c rest IH]; [reflexivity |].
  cbn [endsWithSlash JS.stripTrailingSlash].
  destruct rest as [| c' rest'].
  - destruct (Ascii.eqb_spec c "/") as [E | _]; [now rewrite E | reflexivity].
  - destruct (endsWithSlash (String c' rest')).
    + cbn [append]. now rewrite <- IH.
    + now rewrite IH.
Qed.


(** X19. A constructed client holds the given credential; the given timeout,
    a zero included, or 60000 without one; and as base address the default
    "https://api.pixwell.dev" without one, the given address when it does
    not end in a slash, and the given address less exactly one final slash
    when it does. *)
Theorem constructed_configuration (options : PixwellClientOptions) (w : World)
    (client : Pixwell) :
  fst (new_Pixwell options w) = Returned client ->
  opt_apiKey options = Some (apiKey client) /\
  (forall ms, opt_timeout options = Some ms -> timeout client = ms) /\
  (opt_timeout options = None -> timeout client = 60000%Z) /\
  (opt_baseUrl options = None -> baseUrl client = "https://api.pixwell.dev") /\
  (forall u, opt_baseUrl options = Some u -> endsWithSlash u = false ->
             baseUrl client = u) /\
  (forall u, opt_baseUrl options = Some u -> endsWithSlash u = true ->
             u = baseUrl client ++ "/").
Proof.
  unfold new_Pixwell. destruct (opt_apiKey options) as [[| c rest] |]; cbn [isFalsy JS.truthy negb];
    try (intros H; discriminate H).
  intros H. cbn in H. injection H as H. subst client. cbn [apiKey timeout baseUrl orElse].
  split; [reflexivity |].
  split; [intros ms Hms; now rewrite Hms |].
  split; [intros Hms; now rewrite Hms |].
  split; [intros Hu; now rewrite Hu |].
  split; intros u Hu Hslash; rewrite Hu; cbn [orElse];
    pose proof (stripTrailingSlash_spec u) as Hspec; rewrite Hslash in Hspec;
    assumption.
Qed.


End PixwellClient.


Arguments JUndefined {Double}.
Arguments JNull {Double}.
Arguments JBool {Double} _.
Arguments JNumber {Double} _.
Arguments JString {Double} _.
Arguments JArray {Double} _.
Arguments JObject {Double} _.
Arguments Returned {Double A} _.
Arguments Threw {Double A} _.
Arguments ThrowPixwell {Double} _.
Arguments ThrowError {Double} _ _.
Arguments raises {Double A} _ _.
Arguments cls {Double} _.
Arguments message {Double} _.
Arguments code {Double} _.
Arguments statusCode {Double} _.
Arguments retryAfter {Double} _.
Arguments field {Double} _.
Arguments status {Double} _.
Arguments headers {Double} _.
Arguments json {Double} _.
Arguments arrayBuffer {Double} _.
Arguments respond {Double} _ _ _.
Arguments stall {Double} _ _.
Arguments nullBody {Double} _.
Arguments errorBody {Double} _ _ _ _.
Arguments imageResponse {Double} _ _.
Arguments sampleOptions {Double}.
Arguments errorDataOf {Double} _.
Arguments callOf {Double} _ _ _ _ _ _.

Arguments cachedImage {Double}.
Arguments untimedImage {Double}.
Arguments retryAtDate {Double}.
Arguments retryIn30 {Double}.
Arguments unauthorized {Double}.
Arguments badGateway {Double}.
Arguments networkError {Double} _.
Arguments decodedMessage {Double} _.
Arguments invalidKeyError {Double}.
Arguments rateLimitedFor30 {Double}.
Arguments unprintableMessage {Double} _.

(** ** The properties on concrete runs

    JSON numbers are instantiated with integers printed in decimal, and
    request bodies with a fixed text. *)

(** C1 (failing input). A 401 response whose body is the JSON text [null]:
    reading [errorData.error] throws a TypeError inside [handleError], and
    [request] reports it as a network error without status instead of the
    authentication error. *)
Theorem null_body_401_raises_network_error :
  exists e,
    raises (request Z JS.Number_toString sampleClient (respond (nullBody 401))
              "/api/v1/usage" GET None RTjson freshWorld) e /\
    tableClass 401 = AuthenticationErrorC /\
    cls e = NetworkErrorC /\
    code e = JString "NETWORK_ERROR" /\
    statusCode e = None.
Proof.
  eexists. split; [reflexivity |]. repeat split.
Qed.

(** C5 (failing input). A 503 response whose body is the JSON text [null]
    decodes, carries no message, and yet the raised error's message is the
    TypeError's text and not the generic text naming 503. *)
Theorem null_body_503_message_is_type_error :
  exists e,
    raises (request Z JS.Number_toString sampleClient (respond (nullBody 503))
              "/api/v1/screenshot" POST (Some "{}") RTarrayBuffer freshWorld) e /\
    json (nullBody (Double := Z) 503) = Returned JNull /\
    message e = "Cannot read properties of null (reading 'error')" /\
    genericMessage 503 = "Request failed with status 503" /\
    message e <> genericMessage 503.
Proof.
  eexists. split; [reflexivity |]. repeat split. discriminate.
Qed.

(** C10 (failing input). A 429 response whose body is the JSON text [null]:
    the raised error's code is "NETWORK_ERROR", the constant of the network
    error that wraps the TypeError, and none of the four constants of the
    classes the dispatch table names. *)
Theorem null_body_429_code_is_network_error :
  exists e,
    raises (request Z JS.Number_toString sampleClient (respond (nullBody 429))
              "/api/v1/batch" POST (Some "{}") RTjson freshWorld) e /\
    In 429%Z specialStatuses /\
    fixedCode (tableClass 429) = Some "RATE_LIMIT_ERROR" /\
    cls e = NetworkErrorC /\
    code e = JString "NETWORK_ERROR" /\
    ~ In (code e)
         [JString "AUTHENTICATION_ERROR"; JString "RATE_LIMIT_ERROR";
          JString "VALIDATION_ERROR"; JString "CAPTURE_ERROR"].
Proof.
  eexists. split; [reflexivity |].
  split; [cbn; auto |].
  split; [reflexivity | split; [reflexivity | split; [reflexivity |]]].
  cbn. intros [H | [H | [H | [H | []]]]]; discriminate H.
Qed.

(** C3 (as stated, refuted). A successful capture whose x-duration-ms header
    is "n/a": the header is not numeric, the promised duration is 0, and the
    result's duration is NaN. *)
Lemma screenshot_duration_non_numeric_is_NaN :
  exists res,
    fst (screenshot Z JS.Number_toString (fun _ => "{}") sampleClient
           (respond untimedImage) sampleOptions freshWorld) = Returned res /\
    Headers.get (headers (untimedImage (Double := Z))) "x-duration-ms" = Some "n/a" /\
    JS.isDecimalNumeral "n/a" = false /\
    promisedDuration (Some "n/a") = JS.Int 0 /\
    durationMs res = JS.NaN /\
    durationMs res
    <> promisedDuration (Headers.get (headers (untimedImage (Double := Z))) "x-duration-ms").
Proof.
  eexists. split; [reflexivity |]. repeat split. discriminate.
Qed.

(** C4 (as stated, refuted). A 429 whose retry-after header is an HTTP date:
    the header is present and not numeric, the promised field is undefined,
    and the raised rate-limit error's [retryAfter] is NaN. *)
Lemma retry_after_non_numeric_is_NaN :
  exists e,
    raises (request Z JS.Number_toString sampleClient (respond retryAtDate)
              "/api/v1/usage" GET None RTjson freshWorld) e /\
    cls e = RateLimitErrorC /\
    Headers.get (headers (retryAtDate (Double := Z))) "retry-after"
    = Some "Wed, 21 Oct 2015 07:28:00 GMT" /\
    JS.isDecimalNumeral "Wed, 21 Oct 2015 07:28:00 GMT" = false /\
    promisedRetryAfter (Some "Wed, 21 Oct 2015 07:28:00 GMT") = None /\
    retryAfter e = Some JS.NaN /\
    retryAfter e
    <> promisedRetryAfter (Headers.get (headers (retryAtDate (Double := Z))) "retry-after").
Proof.
  eexists. split; [reflexivity |]. repeat split. discriminate.
Qed.

(** *** Instances of the general statements *)

Lemma constructor_requires_credential_witness :
  (opt_apiKey emptyKeyOptions = None \/ opt_apiKey emptyKeyOptions = Some "") /\
  exists e : PixwellError Z,
    new_Pixwell Z JS.Number_toString emptyKeyOptions freshWorld
    = (Threw (ThrowPixwell e), freshWorld) /\
    cls e = ValidationErrorC /\
    field e = Some "apiKey".
Proof.
  split; [right; reflexivity |].
  destruct (constructor_requires_credential Z JS.Number_toString emptyKeyOptions
              freshWorld (or_intror eq_refl)) as [[e [H1 [H2 [_ H3]]]] _].
  exists e. repeat split; assumption.
Defined.

Lemma screenshot_result_fields_witness :
  fst (screenshot Z JS.Number_toString (fun _ => "{}") sampleClient
         (respond cachedImage) sampleOptions freshWorld) = Returned cachedResult /\
  exists (r : Response Z) (bytes : ArrayBuffer),
    callOf sampleClient (respond cachedImage) "/api/v1/screenshot" POST (Some "{}")
           freshWorld = Resolves Z r /\
    size cachedResult = Z.of_nat (List.length bytes) /\
    durationMs cachedResult
    = match Headers.get (headers r) "x-duration-ms" with
      | Some v => JS.parseInt v
      | None => JS.Int 0
      end /\
    (cached cachedResult = true <-> Headers.get (headers r) "x-cache" = Some "HIT").
Proof.
  split; [reflexivity |].
  destruct (screenshot_result_fields Z JS.Number_toString (fun _ => "{}") sampleClient
              (respond cachedImage) sampleOptions freshWorld cachedResult eq_refl)
    as [r [bytes [H1 [_ [_ [_ [_ [H2 [H3 [_ H4]]]]]]]]]].
  exists r, bytes. repeat split; try assumption; apply H4.
Defined.

Lemma rate_limit_retry_after_witness :
  callOf sampleClient (respond retryIn30) "/api/v1/usage" GET None freshWorld
  = Resolves Z retryIn30 /\
  status (retryIn30 (Double := Z)) = 429%Z /\
  isNullish Z (errorDataOf retryIn30) = false /\
  converts Z JS.Number_toString (decodedMessage retryIn30) = true /\
  exists e,
    raises (request Z JS.Number_toString sampleClient (respond retryIn30)
              "/api/v1/usage" GET None RTjson freshWorld) e /\
    cls e = RateLimitErrorC /\
    retryAfter e = Some (JS.Int 30).
Proof.
  split; [reflexivity | split; [reflexivity | split; [reflexivity | split; [reflexivity |]]]].
  destruct (rate_limit_retry_after Z JS.Number_toString sampleClient (respond retryIn30)
              "/api/v1/usage" GET None RTjson freshWorld retryIn30 eq_refl eq_refl)
    as [Hex Hall].
  destruct (Hex eq_refl eq_refl) as [e [He Hc]].
  exists e. split; [exact He | split; [exact Hc |]].
  exact (proj1 (Hall e He Hc)).
Defined.

Lemma typed_errors_propagate_unchanged_witness :
  callOf sampleClient (respond unauthorized) "/api/v1/usage" GET None freshWorld
  = Resolves Z unauthorized /\
  ok Z unauthorized = false /\
  fst (handleError Z JS.Number_toString unauthorized freshWorld)
  = Threw (ThrowPixwell invalidKeyError) /\
  raises (request Z JS.Number_toString sampleClient (respond unauthorized)
            "/api/v1/usage" GET None RTjson freshWorld)
         invalidKeyError.
Proof.
  split; [reflexivity | split; [reflexivity | split; [reflexivity |]]].
  apply (proj1 (typed_errors_propagate_unchanged Z JS.Number_toString sampleClient
                  (respond unauthorized) "/api/v1/usage" GET None RTjson freshWorld)
           unauthorized _ freshWorld); reflexivity.
Defined.

Lemma timeout_abort_raises_network_error_witness :
  callOf sampleClient stall "/api/v1/screenshot" POST (Some "{}") freshWorld
  = Stalls Z /\
  exists e,
    raises (request Z JS.Number_toString sampleClient stall
              "/api/v1/screenshot" POST (Some "{}") RTarrayBuffer freshWorld) e /\
    cls e = NetworkErrorC /\
    message e = "Request timed out after 50ms".
Proof.
  split; [reflexivity |].
  destruct (timeout_abort_raises_network_error Z JS.Number_toString sampleClient stall
              "/api/v1/screenshot" POST (Some "{}") RTarrayBuffer freshWorld eq_refl)
    as [e [H1 [H2 [H3 _]]]].
  exists e. split; [exact H1 | split; [exact H2 | exact H3]].
Defined.

Lemma capture_error_status_is_500_witness :
  callOf sampleClient (respond badGateway) "/api/v1/screenshot" POST (Some "{}")
         freshWorld = Resolves Z badGateway /\
  (status (badGateway (Double := Z)) = 502 \/ status (badGateway (Double := Z)) = 503)%Z /\
  isNullish Z (errorDataOf badGateway) = false /\
  converts Z JS.Number_toString (decodedMessage badGateway) = true /\
  exists e,
    raises (request Z JS.Number_toString sampleClient (respond badGateway)
              "/api/v1/screenshot" POST (Some "{}") RTarrayBuffer freshWorld) e /\
    cls e = CaptureErrorC /\
    statusCode e = Some 500%Z.
Proof.
  split; [reflexivity | split; [left; reflexivity | split; [reflexivity | split; [reflexivity |]]]].
  destruct (capture_error_status_is_500 Z JS.Number_toString sampleClient
              (respond badGateway) "/api/v1/screenshot" POST (Some "{}") RTarrayBuffer
              freshWorld badGateway eq_refl (or_introl eq_refl)) as [Hex Hall].
  destruct (Hex eq_refl eq_refl) as [e [He Hc]].
  exists e. split; [exact He | split; [exact Hc |]].
  exact (proj1 (Hall e He Hc)).
Defined.

Lemma decoded_code_only_on_generic_error_witness :
  callOf sampleClient (respond unauthorized) "/api/v1/usage" GET None freshWorld
  = Resolves Z unauthorized /\
  ok Z unauthorized = false /\
  raises (request Z JS.Number_toString sampleClient (respond unauthorized)
            "/api/v1/usage" GET None RTjson freshWorld)
         invalidKeyError /\
  exists c,
    code (invalidKeyError (Double := Z)) = JString c /\
    c <> "INVALID_KEY".
Proof.
  split; [reflexivity | split; [reflexivity | split; [reflexivity |]]].
  destruct (decoded_code_only_on_generic_error Z JS.Number_toString sampleClient
              (respond unauthorized) "/api/v1/usage" GET None RTjson freshWorld
              unauthorized invalidKeyError
              eq_refl eq_refl eq_refl) as [Hspecial _].
  destruct (Hspecial (or_introl eq_refl)) as [c [Hfixed Hcode]].
  exists c. split; [exact Hcode |].
  cbn in Hfixed. injection Hfixed as Hfixed. rewrite <- Hfixed. discriminate.
Defined.

(** *** Instances of the further statements *)

Arguments usageBody {Double}.
Arguments usageResponse {Double}.
Arguments htmlResponse {Double}.
Arguments gatewayPage {Double} _.
Arguments flatError {Double} _.
Arguments connectionReset {Double} _ _.
Arguments abortedElsewhere {Double} _ _.
Arguments signalBlind {Double} _.

Lemma request_returns_only_on_success_witness :
  fst (request Z JS.Number_toString sampleClient (respond usageResponse)
         "/api/v1/usage" GET None RTjson freshWorld)
  = Returned (Build_RequestResult Z RTjson usageBody []) /\
  exists r : Response Z,
    callOf sampleClient (respond usageResponse) "/api/v1/usage" GET None freshWorld
    = Resolves Z r /\
    (200 <= status r <= 299)%Z.
Proof.
  split; [reflexivity |].
  destruct (request_returns_only_on_success Z JS.Number_toString sampleClient
              (respond usageResponse) "/api/v1/usage" GET None RTjson freshWorld
              (Build_RequestResult Z RTjson usageBody []) eq_refl)
    as [r [H1 [H2 _]]].
  exists r. split; assumption.
Defined.

Lemma request_throws_only_PixwellError_witness :
  fst (request Z JS.Number_toString sampleClient connectionReset
         "/api/v1/usage" GET None RTjson freshWorld)
  = Threw (ThrowPixwell (networkError "fetch failed")) /\
  exists e : PixwellError Z,
    ThrowPixwell (networkError "fetch failed") = ThrowPixwell e.
Proof.
  split; [reflexivity |].
  exact (request_throws_only_PixwellError Z JS.Number_toString sampleClient
           connectionReset "/api/v1/usage" GET None RTjson freshWorld _ eq_refl).
Defined.

Lemma network_failure_wrapped_witness :
  callOf sampleClient connectionReset "/api/v1/usage" GET None freshWorld
  = Rejects Z (ThrowError "TypeError" "fetch failed") /\
  exists e,
    raises (request Z JS.Number_toString sampleClient connectionReset
              "/api/v1/usage" GET None RTjson freshWorld) e /\
    cls e = NetworkErrorC /\
    statusCode e = None /\
    message e = "fetch failed".
Proof.
  split; [reflexivity |].
  destruct (network_failure_wrapped Z JS.Number_toString sampleClient connectionReset
              "/api/v1/usage" GET None RTjson freshWorld
              (ThrowError "TypeError" "fetch failed") eq_refl
              (fun e H => eq_ind (ThrowError "TypeError" "fetch failed")
                            (fun t => match t with
                                      | ThrowError _ _ => True
                                      | _ => False
                                      end) I _ H))
    as [e [H1 [H2 [_ [H3 H4]]]]].
  exists e. repeat split; assumption.
Defined.

Lemma foreign_abort_reported_as_timeout_witness :
  callOf sampleClient abortedElsewhere "/api/v1/usage" GET None freshWorld
  = Rejects Z (ThrowError "AbortError" "The user aborted a request.") /\
  raises (request Z JS.Number_toString sampleClient abortedElsewhere
            "/api/v1/usage" GET None RTjson freshWorld)
         (networkError "Request timed out after 50ms").
Proof.
  split; [reflexivity |].
  exact (proj1 (foreign_abort_reported_as_timeout Z JS.Number_toString sampleClient
                  abortedElsewhere "/api/v1/usage" GET None RTjson freshWorld
                  "The user aborted a request." eq_refl)).
Defined.

Lemma body_read_failure_is_network_error_witness :
  callOf sampleClient (respond htmlResponse) "/api/v1/usage" GET None freshWorld
  = Resolves Z htmlResponse /\
  ok Z htmlResponse = true /\
  bodyOf Z RTjson htmlResponse
  = Threw (ThrowError "SyntaxError" "Unexpected token < in JSON at position 0") /\
  String.eqb "SyntaxError" "AbortError" = false /\
  exists e,
    raises (request Z JS.Number_toString sampleClient (respond htmlResponse)
              "/api/v1/usage" GET None RTjson freshWorld) e /\
    cls e = NetworkErrorC /\
    message e = "Unexpected token < in JSON at position 0".
Proof.
  split; [reflexivity | split; [reflexivity | split; [reflexivity | split; [reflexivity |]]]].
  destruct (body_read_failure_is_network_error Z JS.Number_toString sampleClient
              (respond htmlResponse) "/api/v1/usage" GET None RTjson freshWorld
              htmlResponse "SyntaxError" "Unexpected token < in JSON at position 0"
              eq_refl eq_refl eq_refl eq_refl) as [e [H1 [H2 [H3 _]]]].
  exists e. repeat split; assumption.
Defined.

Lemma request_preserves_timers_witness :
  wellFormed busyWorld /\
  pending (snd (request Z JS.Number_toString sampleClient (respond usageResponse)
                  "/api/v1/usage" GET None RTjson busyWorld)) = [3; 5]%nat /\
  nextTimer (snd (request Z JS.Number_toString sampleClient (respond usageResponse)
                    "/api/v1/usage" GET None RTjson busyWorld)) = 8%nat /\
  wellFormed (snd (request Z JS.Number_toString sampleClient (respond usageResponse)
                     "/api/v1/usage" GET None RTjson busyWorld)).
Proof.
  assert (Hwf : wellFormed busyWorld).
  { intros id [H | [H | []]]; subst id; cbn; lia. }
  split; [exact Hwf |].
  exact (request_preserves_timers Z JS.Number_toString sampleClient
           (respond usageResponse) "/api/v1/usage" GET None RTjson busyWorld Hwf).
Defined.

Lemma request_outcome_independent_of_world_witness :
  signalBlind (respond (usageResponse (Double := Z))) /\
  fst (request Z JS.Number_toString sampleClient (respond usageResponse)
         "/api/v1/usage" GET None RTjson freshWorld)
  = fst (request Z JS.Number_toString sampleClient (respond usageResponse)
           "/api/v1/usage" GET None RTjson
           {| nextTimer := 7; pending := [3; 5]; trace := [] |}).
Proof.
  assert (Hblind : signalBlind (respond (usageResponse (Double := Z))))
    by (intros url init id; reflexivity).
  split; [exact Hblind |].
  exact (request_outcome_independent_of_world Z JS.Number_toString sampleClient
           (respond usageResponse) "/api/v1/usage" GET None RTjson freshWorld
           {| nextTimer := 7; pending := [3; 5]; trace := [] |} Hblind).
Defined.

Lemma failed_status_dispatch_witness :
  callOf sampleClient (respond unauthorized) "/api/v1/usage" GET None freshWorld
  = Resolves Z unauthorized /\
  ok Z unauthorized = false /\
  isNullish Z (errorDataOf unauthorized) = false /\
  converts Z JS.Number_toString (decodedMessage unauthorized) = true /\
  exists e,
    raises (request Z JS.Number_toString sampleClient (respond unauthorized)
              "/api/v1/usage" GET None RTjson freshWorld) e /\
    cls e = AuthenticationErrorC.
Proof.
  split; [reflexivity | split; [reflexivity | split; [reflexivity | split; [reflexivity |]]]].
  destruct (failed_status_dispatch Z JS.Number_toString sampleClient
              (respond unauthorized) "/api/v1/usage" GET None RTjson freshWorld
              unauthorized eq_refl eq_refl eq_refl eq_refl) as [e [H1 [H2 _]]].
  exists e. split; [exact H1 | exact (H2 eq_refl)].
Defined.

Lemma failed_status_message_witness :
  callOf sampleClient (respond unauthorized) "/api/v1/usage" GET None freshWorld
  = Resolves Z unauthorized /\
  ok Z unauthorized = false /\
  isNullish Z (errorDataOf unauthorized) = false /\
  ToString Z JS.Number_toString (decodedMessage unauthorized) = Some "Invalid API key" /\
  exists e,
    raises (request Z JS.Number_toString sampleClient (respond unauthorized)
              "/api/v1/usage" GET None RTjson freshWorld) e /\
    message e = "Invalid API key".
Proof.
  split; [reflexivity | split; [reflexivity | split; [reflexivity | split; [reflexivity |]]]].
  destruct (failed_status_message Z JS.Number_toString sampleClient
              (respond unauthorized) "/api/v1/usage" GET None RTjson freshWorld
              unauthorized "Invalid API key" eq_refl eq_refl eq_refl eq_refl)
    as [e [H1 [H2 _]]].
  exists e. split; [exact H1 | exact H2].
Defined.

Lemma undecodable_error_body_uses_defaults_witness :
  callOf sampleClient (respond (gatewayPage 504)) "/api/v1/usage" GET None freshWorld
  = Resolves Z (gatewayPage 504) /\
  ok Z (gatewayPage 504) = false /\
  exists e,
    raises (request Z JS.Number_toString sampleClient (respond (gatewayPage 504))
              "/api/v1/usage" GET None RTjson freshWorld) e /\
    message e = "Request failed with status 504".
Proof.
  split; [reflexivity | split; [reflexivity |]].
  destruct (undecodable_error_body_uses_defaults Z JS.Number_toString sampleClient
              (respond (gatewayPage 504)) "/api/v1/usage" GET None RTjson freshWorld
              (gatewayPage 504) _ eq_refl eq_refl eq_refl) as [e [H1 [_ [H3 _]]]].
  exists e. split; assumption.
Defined.

Lemma shapeless_error_body_uses_defaults_witness :
  callOf sampleClient (respond (flatError 404)) "/api/v1/usage" GET None freshWorld
  = Resolves Z (flatError 404) /\
  ok Z (flatError 404) = false /\
  isNullish Z (errorDataOf (flatError 404)) = false /\
  isObject Z (member Z (errorDataOf (flatError 404)) "error") = false /\
  exists e,
    raises (request Z JS.Number_toString sampleClient (respond (flatError 404))
              "/api/v1/usage" GET None RTjson freshWorld) e /\
    message e = "Request failed with status 404".
Proof.
  split; [reflexivity | split; [reflexivity | split; [reflexivity | split; [reflexivity |]]]].
  destruct (shapeless_error_body_uses_defaults Z JS.Number_toString sampleClient
              (respond (flatError 404)) "/api/v1/usage" GET None RTjson freshWorld
              (flatError 404) eq_refl eq_refl eq_refl eq_refl) as [e [H1 [_ [H3 _]]]].
  exists e. split; assumption.
Defined.

Lemma status_code_is_response_status_witness :
  callOf sampleClient (respond (flatError 404)) "/api/v1/usage" GET None freshWorld
  = Resolves Z (flatError 404) /\
  ok Z (flatError 404) = false /\
  isNullish Z (errorDataOf (flatError 404)) = false /\
  converts Z JS.Number_toString (decodedMessage (flatError 404)) = true /\
  exists e,
    raises (request Z JS.Number_toString sampleClient (respond (flatError 404))
              "/api/v1/usage" GET None RTjson freshWorld) e /\
    statusCode e = Some 404%Z.
Proof.
  split; [reflexivity | split; [reflexivity | split; [reflexivity | split; [reflexivity |]]]].
  assert (H502 : status (flatError (Double := Z) 404) <> 502%Z) by (cbn; lia).
  assert (H503 : status (flatError (Double := Z) 404) <> 503%Z) by (cbn; lia).
  exact (status_code_is_response_status Z JS.Number_toString sampleClient
           (respond (flatError 404)) "/api/v1/usage" GET None RTjson freshWorld
           (flatError 404) eq_refl eq_refl eq_refl eq_refl H502 H503).
Defined.

Lemma extra_fields_of_raised_errors_witness :
  callOf sampleClient (respond retryIn30) "/api/v1/usage" GET None freshWorld
  = Resolves Z retryIn30 /\
  ok Z retryIn30 = false /\
  raises (request Z JS.Number_toString sampleClient (respond retryIn30)
            "/api/v1/usage" GET None RTjson freshWorld)
         rateLimitedFor30 /\
  field (rateLimitedFor30 (Double := Z)) = None.
Proof.
  split; [reflexivity | split; [reflexivity | split; [reflexivity |]]].
  exact (proj1 (extra_fields_of_raised_errors Z JS.Number_toString sampleClient
                  (respond retryIn30) "/api/v1/usage" GET None RTjson freshWorld
                  retryIn30 _ eq_refl eq_refl eq_refl)).
Defined.

Lemma batch_returns_decoded_body_witness :
  callOf sampleClient (respond usageResponse) "/api/v1/batch" POST (Some "{}") freshWorld
  = Resolves Z usageResponse /\
  ok Z usageResponse = true /\
  json (usageResponse (Double := Z)) = Returned usageBody /\
  fst (batch Z JS.Number_toString (fun _ => "{}") sampleClient (respond usageResponse)
         sampleOptions freshWorld) = Returned usageBody.
Proof.
  split; [reflexivity | split; [reflexivity | split; [reflexivity |]]].
  exact (batch_returns_decoded_body Z JS.Number_toString (fun _ => "{}") sampleClient
           (respond usageResponse) sampleOptions freshWorld usageResponse usageBody
           eq_refl eq_refl eq_refl).
Defined.

Lemma usage_is_repeatable_witness :
  signalBlind (respond (usageResponse (Double := Z))) /\
  fst (usage Z JS.Number_toString sampleClient (respond usageResponse)
         (snd (usage Z JS.Number_toString sampleClient (respond usageResponse)
                 freshWorld)))
  = fst (usage Z JS.Number_toString sampleClient (respond usageResponse) freshWorld).
Proof.
  assert (Hblind : signalBlind (respond (usageResponse (Double := Z))))
    by (intros url init id; reflexivity).
  split; [exact Hblind |].
  exact (usage_is_repeatable Z JS.Number_toString sampleClient
           (respond usageResponse) freshWorld Hblind).
Defined.

Lemma screenshot_raises_classified_error_witness :
  callOf sampleClient (respond unauthorized) "/api/v1/screenshot" POST (Some "{}")
         freshWorld = Resolves Z unauthorized /\
  ok Z unauthorized = false /\
  isNullish Z (errorDataOf unauthorized) = false /\
  converts Z JS.Number_toString (decodedMessage unauthorized) = true /\
  exists e,
    raises (screenshot Z JS.Number_toString (fun _ => "{}") sampleClient
              (respond unauthorized) sampleOptions freshWorld) e /\
    cls e = AuthenticationErrorC.
Proof.
  split; [reflexivity | split; [reflexivity | split; [reflexivity | split; [reflexivity |]]]].
  destruct (screenshot_raises_classified_error Z JS.Number_toString (fun _ => "{}")
              sampleClient (respond unauthorized) sampleOptions freshWorld
              unauthorized eq_refl eq_refl eq_refl eq_refl) as [e [H1 [_ H3]]].
  exists e. split; [exact H1 | exact H3].
Defined.

Lemma constructed_configuration_witness :
  fst (new_Pixwell Z JS.Number_toString slashOptions freshWorld)
  = Returned {| apiKey := "px_live_key";
                baseUrl := "https://proxy.example.com";
                timeout := 0 |} /\
  opt_apiKey slashOptions = Some "px_live_key" /\
  (forall ms, opt_timeout slashOptions = Some ms -> 0%Z = ms).
Proof.
  split; [reflexivity |].
  destruct (constructed_configuration Z JS.Number_toString slashOptions freshWorld
              {| apiKey := "px_live_key";
                 baseUrl := "https://proxy.example.com";
                 timeout := 0 |} eq_refl) as [H1 [H2 _]].
  split; [exact H1 | exact H2].
Defined.


Lemma unconvertible_message_masks_status_witness :
  callOf sampleClient (respond (unprintableMessage 401)) "/api/v1/usage" GET None
         freshWorld = Resolves Z (unprintableMessage 401) /\
  ok Z (unprintableMessage 401) = false /\
  isNullish Z (errorDataOf (unprintableMessage 401)) = false /\
  converts Z JS.Number_toString (decodedMessage (unprintableMessage 401)) = false /\
  exists e,
    raises (request Z JS.Number_toString sampleClient (respond (unprintableMessage 401))
              "/api/v1/usage" GET None RTjson freshWorld) e /\
    cls e = NetworkErrorC /\
    statusCode e = None.
Proof.
  split; [reflexivity | split; [reflexivity | split; [reflexivity | split; [reflexivity |]]]].
  destruct (unconvertible_message_masks_status Z JS.Number_toString sampleClient
              (respond (unprintableMessage 401)) "/api/v1/usage" GET None RTjson
              freshWorld (unprintableMessage 401) eq_refl eq_refl eq_refl eq_refl)
    as [e [H1 [H2 [_ [_ H5]]]]].
  exists e. split; [exact H1 | split; [exact H2 | exact H5]].
Defined.
